(** * BCA protein assay analysis: the computational core of
      [bca_assay_analysis.py] as Rocq functions.

    The script is one linear pass: it cuts the plate out of the spreadsheet
    (the [data] frame), asks for the standard concentrations and where they
    sit on the plate ([StandardCurve]), fits a straight line through the
    mean absorbances, and converts sample absorbances back to
    concentrations ([CalcConc]).

    Conventions of the embedding:
    - a pandas frame is a record of row labels, column labels and a list of
      rows; selecting by label, [transpose], [tail], [iloc] slices and
      [mean] are the functions of the same names below;
    - a Python exception is the [Raises] case of [outcome]; the
      [try]/[except Exception] of [StandardCurve] turns it into the tuple of
      four [None]s;
    - the globals [slope] and [intercept] read by [CalcConc] are passed
      explicitly as a [Curve];
    - what the user types at a prompt is an argument of the function that
      reads it; the plotting calls are left out, and of the printed texts
      only the reports of the sample loop and of manual mode are kept;
    - numbers are kept behind the interface [Number], with two instances:
      IEEE binary64 (what numpy computes with) and the rationals (exact
      arithmetic);
    - text is ASCII: on the characters below 128 the tests and conversions
      of [Str] are those of Python's [str], and [Str.is_ascii] says that a
      text is made of such characters. *)

From Stdlib Require Import String Ascii.
From Stdlib Require Import List Bool Arith ZArith QArith Lia Floats.
From Stdlib Require Import Field Qfield.
Import ListNotations.

Set Implicit Arguments.

(** ** Outcomes: a value, or a Python exception *)

Inductive exn : Type :=
| ValueError
| KeyError
| IndexError
| TypeError
| AttributeError.

Inductive outcome (A : Type) : Type :=
| Returns (a : A)
| Raises (e : exn).

Arguments Returns {A} a.
Arguments Raises {A} e.

Definition bind {A B : Type} (m : outcome A) (k : A -> outcome B) : outcome B :=
  match m with
  | Returns a => k a
  | Raises e => Raises e
  end.

Declare Scope outcome_scope.
Delimit Scope outcome_scope with outcome.
Notation "x <- m ;; k" := (bind m (fun x => k))
  (at level 61, m at next level, right associativity) : outcome_scope.
Local Open Scope outcome_scope.

Definition fails {A : Type} (m : outcome A) : Prop := exists e, m = Raises e.

Fixpoint mapM {A B : Type} (f : A -> outcome B) (l : list A) : outcome (list B) :=
  match l with
  | [] => Returns []
  | a :: l' => b <- f a ;; bs <- mapM f l' ;; Returns (b :: bs)
  end.

(** ** Text: the [str] methods the script calls, on ASCII strings *)

Module Str.

Local Open Scope char_scope.

Definition code (c : ascii) : nat := nat_of_ascii c.

Definition char_isdigit (c : ascii) : bool :=
  (48 <=? code c)%nat && (code c <=? 57)%nat.

Definition char_isupper (c : ascii) : bool :=
  (65 <=? code c)%nat && (code c <=? 90)%nat.

Definition char_islower (c : ascii) : bool :=
  (97 <=? code c)%nat && (code c <=? 122)%nat.

Definition char_isalpha (c : ascii) : bool := char_isupper c || char_islower c.

(** Tab, line feed, vertical tab, form feed, carriage return, the four
    separators 28..31 and the space. *)
Definition char_isspace (c : ascii) : bool :=
  ((9 <=? code c)%nat && (code c <=? 13)%nat)
  || ((28 <=? code c)%nat && (code c <=? 32)%nat).

Definition char_upper (c : ascii) : ascii :=
  if char_islower c then ascii_of_nat (code c - 32) else c.

Fixpoint all (p : ascii -> bool) (s : string) : bool :=
  match s with
  | EmptyString => true
  | String c s' => p c && all p s'
  end.

Definition nonempty (s : string) : bool :=
  match s with EmptyString => false | String _ _ => true end.

(** [s.isdigit()], [s.isalpha()]: every character, and at least one. *)
Definition isdigit (s : string) : bool := nonempty s && all char_isdigit s.
Definition isalpha (s : string) : bool := nonempty s && all char_isalpha s.

(** [s.upper()] *)
Fixpoint upper (s : string) : string :=
  match s with
  | EmptyString => EmptyString
  | String c s' => String (char_upper c) (upper s')
  end.

Fixpoint lstrip (s : string) : string :=
  match s with
  | EmptyString => EmptyString
  | String c s' => if char_isspace c then lstrip s' else s
  end.

Fixpoint rstrip (s : string) : string :=
  match s with
  | EmptyString => EmptyString
  | String c s' =>
      match rstrip s' with
      | EmptyString => if char_isspace c then EmptyString else String c EmptyString
      | r => String c r
      end
  end.

(** [s.strip()] *)
Definition strip (s : string) : string := rstrip (lstrip s).

(** [s.split(',')]: never the empty list. *)
Fixpoint split_comma (s : string) : list string :=
  match s with
  | EmptyString => [EmptyString]
  | String c s' =>
      if Ascii.eqb c "," then EmptyString :: split_comma s'
      else match split_comma s' with
           | [] => [String c EmptyString]
           | t :: ts => String c t :: ts
           end
  end.

Definition digit_value (c : ascii) : Z := Z.of_nat (code c - 48).

(** The digits of a decimal literal: one or more digits, single
    underscores allowed between two digits. [after_digit] tells whether
    the previous character was a digit. *)
Fixpoint int_digits (acc : Z) (after_digit : bool) (s : string) : option Z :=
  match s with
  | EmptyString => if after_digit then Some acc else None
  | String c s' =>
      if char_isdigit c then int_digits (10 * acc + digit_value c) true s'
      else if Ascii.eqb c "_" && after_digit then int_digits acc false s'
      else None
  end.

(** The white space [int] drops around a literal: tab, line feed,
    vertical tab, form feed, carriage return and the space. Unlike
    [strip] it keeps the separators 28..31. *)
Definition char_isblank (c : ascii) : bool :=
  ((9 <=? code c)%nat && (code c <=? 13)%nat) || (code c =? 32)%nat.

Fixpoint ltrim (s : string) : string :=
  match s with
  | EmptyString => EmptyString
  | String c s' => if char_isblank c then ltrim s' else s
  end.

Fixpoint rtrim (s : string) : string :=
  match s with
  | EmptyString => EmptyString
  | String c s' =>
      match rtrim s' with
      | EmptyString => if char_isblank c then EmptyString else String c EmptyString
      | r => String c r
      end
  end.

Definition trim (s : string) : string := rtrim (ltrim s).

(** [int(s)]: surrounding blanks are dropped, one sign is allowed;
    [None] is the [ValueError]. *)
Definition int (s : string) : option Z :=
  match trim s with
  | String "+" r => int_digits 0 false r
  | String "-" r => option_map Z.opp (int_digits 0 false r)
  | t => int_digits 0 false t
  end.

(** The characters of ASCII, and the texts made of them. On these the
    tests and conversions above are those of Python's [str]. *)
Definition char_isascii (c : ascii) : bool := (code c <? 128)%nat.

Definition is_ascii (s : string) : bool := all char_isascii s.

End Str.

(** ** Numbers *)

(** The arithmetic the script and the libraries under it perform on
    absorbances and concentrations. [nisnan] is pandas' [isna] on a number,
    [nisfinite] numpy's [isfinite], [nround4] is [round(4)]. *)
Class Number (num : Type) : Type := {
  nzero : num;
  nadd : num -> num -> num;
  nsub : num -> num -> num;
  nmul : num -> num -> num;
  ndiv : num -> num -> num;
  ncount : nat -> num;
  nisnan : num -> bool;
  nisfinite : num -> bool;
  niszero : num -> bool;
  nround4 : num -> num
}.

(** *** binary64 *)

Module F64.

Local Open Scope float_scope.

Definition two52 : float := 4503599627370496.

(** Round to the nearest integer, ties to even (numpy's [rint]): below
    2^52 in magnitude, adding and removing 2^52 does the rounding; from
    2^52 on every float is an integer. *)
Definition rint (x : float) : float :=
  if abs x <? two52 then
    if get_sign x then - ((- x + two52) - two52) else (x + two52) - two52
  else x.

(** [numpy.round(x, 4)]: scale by 10^4, [rint], scale back. *)
Definition round4 (x : float) : float := rint (x * 10000) / 10000.

Definition count (n : nat) : float := of_uint63 (Uint63.of_Z (Z.of_nat n)).

Definition is_zero (x : float) : bool := x =? 0.

End F64.

#[export] Instance float_number : Number float := {
  nzero := 0%float;
  nadd := PrimFloat.add;
  nsub := PrimFloat.sub;
  nmul := PrimFloat.mul;
  ndiv := PrimFloat.div;
  ncount := F64.count;
  nisnan := PrimFloat.is_nan;
  nisfinite := PrimFloat.is_finite;
  niszero := F64.is_zero;
  nround4 := F64.round4
}.

(** *** Exact arithmetic *)

Module Exact.

(** Nearest integer to [n/d], ties to even. *)
Definition rint_ratio (n : Z) (d : positive) : Z :=
  let q := (n / Zpos d)%Z in
  let r := (n mod Zpos d)%Z in
  match (2 * r ?= Zpos d)%Z with
  | Lt => q
  | Gt => (q + 1)%Z
  | Eq => if Z.even q then q else (q + 1)%Z
  end.

Definition round4 (x : Q) : Q :=
  Qmake (rint_ratio (Qnum x * 10000) (Qden x)) 10000.

Definition count (n : nat) : Q := inject_Z (Z.of_nat n).

Definition is_zero (x : Q) : bool := (Qnum x =? 0)%Z.

End Exact.

#[export] Instance exact_number : Number Q := {
  nzero := 0%Q;
  nadd := Qplus;
  nsub := Qminus;
  nmul := Qmult;
  ndiv := Qdiv;
  ncount := Exact.count;
  nisnan := fun _ => false;
  nisfinite := fun _ => true;
  niszero := Exact.is_zero;
  nround4 := Exact.round4
}.

(** ** The Concentration Estimator *)

Section Estimator.

Context {num : Type} `{Number num}.

(** The globals [slope] and [intercept] set by the regression. *)
Record Curve : Type := { slope : num; intercept : num }.

(** [return ((absorbance-intercept)/slope)] *)
Definition CalcConc (curve : Curve) (absorbance : num) : num :=
  ndiv (nsub absorbance (intercept curve)) (slope curve).

(** A call of [CalcConc]. Its body is one arithmetic expression on numpy
    floats, which signals a zero divisor with a warning and a non-finite
    value, never with an exception. *)
Definition estimate (curve : Curve) (absorbance : num) : outcome num :=
  Returns (CalcConc curve absorbance).

End Estimator.

Arguments Curve num : clear implicits.


Local Open Scope string_scope.

(** ** Frames *)

Section Frames.

Context {num : Type} `{Number num}.

(** A spreadsheet cell: a number or text. *)
Inductive cell : Type :=
| Num (x : num)
| Text (s : string).

(** A row or column label: an integer (the renumbered columns) or a cell
    taken from the sheet (the header row, the column made the index). *)
Inductive label : Type :=
| IntL (k : Z)
| CellL (c : cell).

(** [values] is the list of rows. *)
Record DataFrame : Type := {
  index : list label;
  columns : list label;
  values : list (list cell)
}.

Record Series : Type := {
  s_index : list label;
  s_values : list num
}.

(** Every row has one cell per column, and there is one label per row. *)
Definition well_formed (df : DataFrame) : Prop :=
  length (index df) = length (values df) /\
  Forall (fun row => length row = length (columns df)) (values df).

(** The key of a [frame[key]] lookup: the script uses integers on [data]
    and strings on its transpose. *)
Inductive key : Type :=
| IntKey (k : Z)
| StrKey (s : string).

Definition key_matches (k : key) (l : label) : bool :=
  match k, l with
  | IntKey a, IntL b => (a =? b)%Z
  | StrKey s, CellL (Text t) => String.eqb s t
  | _, _ => false
  end.

(** Positions of the columns a key names, from position [from] on. *)
Fixpoint positions (k : key) (from : nat) (labels : list label) : list nat :=
  match labels with
  | [] => []
  | l :: ls =>
      if key_matches k l then from :: positions k (S from) ls
      else positions k (S from) ls
  end.

Definition at_position {A : Type} (l : list A) (j : nat) : list A :=
  match nth_error l j with
  | Some a => [a]
  | None => []
  end.

Definition pick {A : Type} (js : list nat) (l : list A) : list A :=
  flat_map (at_position l) js.

(** [l[a:b]], [l.tail(n)], [l.iloc[:n]] *)
Definition slice {A : Type} (a b : nat) (l : list A) : list A :=
  firstn (b - a) (skipn a l).

Definition tail {A : Type} (n : nat) (l : list A) : list A :=
  skipn (length l - n) l.

(** [frame[keys]] with a list of keys: the named columns in the order of
    the keys, [KeyError] when a key names no column. *)
Definition lookup (k : key) (labels : list label) : outcome (list nat) :=
  match positions k 0 labels with
  | [] => Raises KeyError
  | js => Returns js
  end.

Definition getitem_list (df : DataFrame) (keys : list key) : outcome DataFrame :=
  jss <- mapM (fun k => lookup k (columns df)) keys ;;
  let js := concat jss in
  Returns {| index := index df;
             columns := pick js (columns df);
             values := map (pick js) (values df) |}.

Definition column (df : DataFrame) (j : nat) : list cell :=
  flat_map (fun row => at_position row j) (values df).

(** [frame.transpose()] *)
Definition transpose (df : DataFrame) : DataFrame :=
  {| index := columns df;
     columns := index df;
     values := map (column df) (seq 0 (length (columns df))) |}.

Definition as_number (c : cell) : outcome num :=
  match c with
  | Num x => Returns x
  | Text _ => Raises TypeError
  end.

Definition total (xs : list num) : num := fold_left nadd xs nzero.

(** The mean of numbers, missing values ([NaN]) left out. *)
Definition nanmean (xs : list num) : num :=
  let present := filter (fun x => negb (nisnan x)) xs in
  ndiv (total present) (ncount (length present)).

(** [.mean()] of cells: text among them is a [TypeError]. *)
Definition mean (cs : list cell) : outcome num :=
  xs <- mapM as_number cs ;;
  Returns (nanmean xs).

(** [frame.mean(axis=1)]: one mean per row. *)
Definition mean_axis1 (df : DataFrame) : outcome Series :=
  ms <- mapM mean (values df) ;;
  Returns {| s_index := index df; s_values := ms |}.

(** [series[0:n]] *)
Definition series_head (n : nat) (s : Series) : Series :=
  {| s_index := firstn n (s_index s); s_values := firstn n (s_values s) |}.

(** ** The Table Normalizer (lines 22-38) *)

Definition table (df : DataFrame) : DataFrame :=
  {| index := tail 8 (index df);
     columns := columns df;
     values := tail 8 (values df) |}.

Definition columns_to_select (df : DataFrame) : list label :=
  slice 1 14 (columns (table df)).

(** [range(a, b)] *)
Definition range (a b : nat) : list Z := map Z.of_nat (seq a (b - a)).

(** The frame [data], from the loaded sheet [df]. The header labels of a
    sheet read by pandas are distinct, so picking the selected columns by
    label is picking positions 1 to 13. [columns_to_select[0]] is an
    [IndexError] on an empty selection; assigning the 12 new column labels
    is a [ValueError] unless 12 columns are left beside the index. *)
Definition data (df : DataFrame) : outcome DataFrame :=
  match columns_to_select df with
  | [] => Raises IndexError
  | _ :: kept =>
      let selected := map (slice 1 14) (values (table df)) in
      if (length kept =? 12)%nat then
        Returns {| index := map CellL (flat_map (firstn 1) selected);
                   columns := map IntL (range 1 13);
                   values := map (skipn 1) selected |}
      else Raises ValueError
  end.

(** ** The Standard Curve Fitter (lines 44-146) *)

(** [standard_values_location] as returned: the integers of the vertical
    branch, or strings. *)
Inductive locations : Type :=
| Columns (ks : list Z)
| Tokens (ts : list string).

(** The tuple [StandardCurve] returns. *)
Record standards : Type := {
  standard_conc : list num;
  standard_units : list string;
  standard_values_location : locations;
  new_data : option Series
}.

Definition to_int (x : string) : outcome Z :=
  match Str.int x with
  | Some k => Returns k
  | None => Raises ValueError
  end.

(** Lines 81-92, the branch taken when the first token is numeric. *)
Definition vertical (data : DataFrame) (n : nat) (tokens : list string)
  : outcome (locations * option Series) :=
  ks <- mapM to_int tokens ;;
  selected <- getitem_list data (map IntKey ks) ;;
  means <- mean_axis1 selected ;;
  Returns (Columns ks, Some (series_head n means)).

(** Lines 95-107, the branch taken when the first token is alphabetic. *)
Definition horizontal (data : DataFrame) (n : nat) (tokens : list string)
  : outcome (locations * option Series) :=
  let transposed_data := transpose data in
  let upper_tokens := map Str.upper tokens in
  selected <- getitem_list transposed_data (map StrKey upper_tokens) ;;
  means <- mean_axis1 selected ;;
  Returns (Tokens upper_tokens, Some (series_head n means)).

(** The body of the [try]. The concentrations arrive parsed; the location
    line arrives split at its commas. *)
Definition StandardCurve_try (data : DataFrame) (concentrations : list num)
    (location_input : list string) : outcome (locations * option Series) :=
  let tokens := map Str.strip location_input in
  match tokens with
  | [] => Raises IndexError
  | first :: _ =>
      if Str.isdigit first then vertical data (length concentrations) tokens
      else if Str.isalpha first then horizontal data (length concentrations) tokens
      else Returns (Tokens tokens, None)
  end.

(** [StandardCurve]: [None] is the tuple of four [None]s of the
    [except] clause. *)
Definition StandardCurve (data : DataFrame) (concentrations : list num)
    (units : list string) (location_input : list string) : option standards :=
  match StandardCurve_try data concentrations location_input with
  | Returns (where_, means) =>
      Some {| standard_conc := concentrations;
              standard_units := units;
              standard_values_location := where_;
              new_data := means |}
  | Raises _ => None
  end.

Fixpoint zip_with (f : num -> num -> num) (xs ys : list num) : list num :=
  match xs, ys with
  | x :: xs', y :: ys' => f x y :: zip_with f xs' ys'
  | _, _ => []
  end.

(** [LinearRegression().fit(X, y)] with one feature, as scikit-learn
    documents it: the inputs must have one length, at least one sample and
    only finite entries ([ValueError] otherwise); the line is the least
    squares solution on the centred data, and of the many solutions of a
    constant regressor the one of least norm, slope 0. The line is
    computed in closed form: over exact arithmetic it is the solution
    itself; in binary64 the library's result can differ from it in the
    last places, and the statements below do not rest on such digits,
    only on whether the fit raises. *)
Definition LinearRegression_fit (X y : list num) : outcome (Curve num) :=
  if negb (length X =? length y)%nat then Raises ValueError
  else if (length X =? 0)%nat then Raises ValueError
  else if negb (forallb nisfinite X && forallb nisfinite y) then Raises ValueError
  else
    let n := ncount (length X) in
    let x_mean := ndiv (total X) n in
    let y_mean := ndiv (total y) n in
    let xc := map (fun x => nsub x x_mean) X in
    let yc := map (fun v => nsub v y_mean) y in
    let sxx := total (zip_with nmul xc xc) in
    let sxy := total (zip_with nmul xc yc) in
    let coef := if niszero sxx then nzero else ndiv sxy sxx in
    Returns {| slope := coef; intercept := nsub y_mean (nmul coef x_mean) |}.

(** Lines 131-146: the regression through the standard points. Without
    [new_data] the call [new_data.round(4)] is an [AttributeError]. The
    coefficient of determination is only printed and is left out. *)
Definition fit (data : DataFrame) (concentrations : list num)
    (units : list string) (location_input : list string) : outcome (Curve num) :=
  match StandardCurve data concentrations units location_input with
  | None => Raises AttributeError
  | Some r =>
      match new_data r with
      | None => Raises AttributeError
      | Some means =>
          LinearRegression_fit (standard_conc r) (map nround4 (s_values means))
      end
  end.

(** ** Batch mode (lines 214-241) *)

(** What the loop prints for a sample. *)
Inductive report : Type :=
| NoValidSample
| Concentration (sample : string) (concentration : num).

(** [frame[key].iloc[:3].mean()] with one key. A key naming several
    columns selects a frame, whose means cannot be formatted by the
    [print] that follows ([TypeError]). *)
Definition sample_abs (df : DataFrame) (k : key) : outcome num :=
  match positions k 0 (columns df) with
  | [] => Raises KeyError
  | [j] => mean (firstn 3 (column df j))
  | _ => Raises TypeError
  end.

(** One turn of the loop; [sample.strip()] has no effect on [sample]. *)
Definition sample_turn (data : DataFrame) (curve : Curve num) (sample : string)
  : outcome (list report) :=
  match sample with
  | EmptyString => Returns []
  | String c _ =>
      if Str.char_isdigit c then
        k <- to_int sample ;;
        a <- sample_abs data (IntKey k) ;;
        Returns [Concentration sample (CalcConc curve a)]
      else if Str.char_isalpha c then
        let sample := Str.upper sample in
        let transposed_data := transpose data in
        a <- sample_abs transposed_data (StrKey sample) ;;
        Returns [Concentration sample (CalcConc curve a)]
      else Returns [NoValidSample]
  end.

(** The loop: the reports printed, and the exception that ended it
    early, if any. *)
Fixpoint sample_loop (data : DataFrame) (curve : Curve num)
    (sample_location : list string) : list report * option exn :=
  match sample_location with
  | [] => ([], None)
  | sample :: rest =>
      match sample_turn data curve sample with
      | Raises e => ([], Some e)
      | Returns printed =>
          let (more, e) := sample_loop data curve rest in
          ((printed ++ more)%list, e)
      end
  end.

Definition batch (data : DataFrame) (curve : Curve num) (line : string)
  : list report * option exn :=
  sample_loop data curve (Str.split_comma line).

(** Manual mode (lines 247-256): one estimate per absorbance entered. *)
Definition manual (curve : Curve num) (absorbances : list num) : list num :=
  map (CalcConc curve) absorbances.

End Frames.

Arguments cell num : clear implicits.
Arguments label num : clear implicits.
Arguments DataFrame num : clear implicits.
Arguments Series num : clear implicits.
Arguments standards num : clear implicits.
Arguments report num : clear implicits.

(** ** The prompts around the estimator (lines 71, 190, 212-214, 247-259) *)

Module Prompt.

Import Str.

(** [s.split(sep)] with a separator of one character. *)
Fixpoint split (sep : ascii) (s : string) : list string :=
  match s with
  | EmptyString => [EmptyString]
  | String c s' =>
      if Ascii.eqb c sep then EmptyString :: split sep s'
      else match split sep s' with
           | [] => [String c EmptyString]
           | t :: ts => String c t :: ts
           end
  end.

Definition char_lower (c : ascii) : ascii :=
  if char_isupper c then ascii_of_nat (code c + 32) else c.

(** [s.lower()] *)
Fixpoint lower (s : string) : string :=
  match s with
  | EmptyString => EmptyString
  | String c s' => String (char_lower c) (lower s')
  end.

(** Line 212-214: the answer, stripped, is compared in lower case with
    "yes"; [true] is batch mode, [false] manual mode. *)
Definition straight_line (answer : string) : bool :=
  let location_check := strip answer in
  String.eqb (lower location_check) "yes".

(** Line 71: what is typed for the unit, split at "/". *)
Definition standard_units_of (typed : string) : list string := split "/" typed.

(** [standard_units[0]] and [standard_units[1]], as the axis label of line
    190 and the reports of lines 241 and 256 read them. *)
Definition unit_parts (standard_units : list string) : outcome (string * string) :=
  match standard_units with
  | numerator :: denominator :: _ => Returns (numerator, denominator)
  | _ => Raises IndexError
  end.

End Prompt.

Section ManualMode.

Context {num : Type} `{Number num}.

(** What manual mode prints. *)
Inductive manual_print : Type :=
| Calculating (count_samples : Z)
| SampleConcentration (count : nat) (sample_absorbance concentration : num)
| WrongFormat.

(** The loop of lines 253-256, [done] samples in and [todo] to go. The
    answer to the [n]-th absorbance prompt is [answers n]: the number
    [float] makes of it, or [None] when [float] raises [ValueError]. *)
Fixpoint absorbance_loop (curve : Curve num) (answers : nat -> option num)
    (done todo : nat) : list manual_print * option exn :=
  match todo with
  | O => ([], None)
  | S todo' =>
      let count := S done in
      match answers done with
      | None => ([], Some ValueError)
      | Some sample_absorbance =>
          let (more, e) := absorbance_loop curve answers count todo' in
          (SampleConcentration count sample_absorbance
             (CalcConc curve sample_absorbance) :: more, e)
      end
  end.

(** Lines 247-259. [isinstance(count_samples, int)] holds of everything
    [int] returns. *)
Definition manual_mode (curve : Curve num) (count_typed : string)
    (answers : nat -> option num) : list manual_print * option exn :=
  match Str.int count_typed with
  | None => ([], Some ValueError)
  | Some count_samples =>
      if (0 <? count_samples)%Z then
        let (more, e) := absorbance_loop curve answers 0 (Z.to_nat count_samples) in
        (Calculating count_samples :: more, e)
      else ([WrongFormat], None)
  end.

(** The concentrations among what was printed, in order. *)
Definition concentrations_printed (printed : list manual_print) : list num :=
  flat_map (fun p => match p with
                     | SampleConcentration _ _ c => [c]
                     | _ => []
                     end) printed.

End ManualMode.

Arguments manual_print num : clear implicits.

(** [sep.join(parts)] *)
Fixpoint join (sep : ascii) (parts : list string) : string :=
  match parts with
  | [] => EmptyString
  | [t] => t
  | t :: rest => (t ++ String sep (join sep rest))%string
  end.

(** ** Vocabulary of the statements on text *)

Module Words.

Import Str.

(** A character that is no lower-case letter. *)
Definition plain (c : ascii) : bool := negb (char_islower c).

(** A string without the character [sep]. *)
Definition free_of (sep : ascii) (s : string) : bool :=
  all (fun c => negb (Ascii.eqb c sep)) s.

(** A string that does not start with white space. *)
Definition starts_clean (s : string) : bool :=
  match s with
  | EmptyString => true
  | String c _ => negb (char_isspace c)
  end.

End Words.

(** ** Vocabulary of the statements *)

Section Vocabulary.

Context {num : Type} `{Number num}.

(** A plate of numbers [m] (a list of rows of 12 readings) under the
    column labels 1 to 12. *)
Definition numeric_plate (idx : list (label num)) (m : list (list num)) : DataFrame num :=
  {| index := idx;
     columns := map IntL (range 1 13);
     values := map (map Num) m |}.

Definition row_labels (names : list string) : list (label num) :=
  map (fun s => CellL (Text s)) names.

(** The reading in row [i], at column position [j], both from 0. *)
Definition well (m : list (list num)) (i j : nat) : num :=
  nth j (nth i m []) nzero.

(** The table of a plate, turned: one row per column of the plate. *)
Definition turned (m : list (list num)) : list (list num) :=
  map (fun j => map (fun row => nth j row nzero) m) (seq 0 12).

(** The readings of the column at position [j], top down. *)
Definition plate_column (m : list (list num)) (j : nat) : list num :=
  map (fun row => nth j row nzero) m.

(** The readings of the row at position [r], left to right. *)
Definition plate_row (m : list (list num)) (r : nat) : list num := nth r m [].

(** A token that reads as the number of one of the 12 columns. *)
Definition names_column (t : string) : Prop :=
  exists k, Str.int t = Some k /\ (1 <= k <= 12)%Z.

(** The position of the column a token names. *)
Definition column_of (t : string) : nat :=
  match Str.int t with
  | Some k => Z.to_nat k - 1
  | None => 0
  end.

(** The position of the row called [s]. *)
Fixpoint row_of (names : list string) (s : string) : nat :=
  match names with
  | [] => 0
  | a :: rest => if String.eqb s a then 0 else S (row_of rest s)
  end.

(** A token the sample loop can answer on a plate with the columns 1 to
    12 and the rows [names]: empty; or starting with a digit and naming a
    column; or starting with a letter and, upper-cased, naming a row; or
    starting with neither. *)
Definition resolvable (names : list string) (t : string) : Prop :=
  match t with
  | EmptyString => True
  | String c _ =>
      (Str.char_isdigit c = true /\ names_column t)
      \/ (Str.char_isalpha c = true /\ In (Str.upper t) names)
      \/ (Str.char_isdigit c = false /\ Str.char_isalpha c = false)
  end.

(** The sample a report is about; the warning names none. *)
Definition reported_sample (r : report num) : option string :=
  match r with
  | NoValidSample => None
  | Concentration sample _ => Some sample
  end.

(** A report put in front of what a loop printed. *)
Definition then_ (r : report num) (rest : list (report num) * option exn)
  : list (report num) * option exn :=
  (r :: fst rest, snd rest).

End Vocabulary.

(** ** A sheet to run the script on *)

Section Fixture.

Context {num : Type} `{Number num}.

Definition letters : list string := ["A"; "B"; "C"; "D"; "E"; "F"; "G"; "H"].

(** The reading of the well in row [r], column [c] (both from 0):
    [(12 r + c + 1) / 16]. *)
Definition reading (r c : nat) : num := ndiv (ncount (12 * r + c + 1)) (ncount 16).

Definition sheet_row (width : nat) (r : nat) (name : string) : list (cell num) :=
  Num (ncount 25) :: Text name :: map (fun c => Num (reading r c)) (seq 0 width).

Definition header (width : nat) : list (label num) :=
  CellL (Text "Unnamed: 0") :: CellL (Text "<>")
    :: map (fun c => CellL (Num (ncount c))) (seq 1 width).

Fixpoint sheet_rows (width : nat) (r : nat) (names : list string) : list (list (cell num)) :=
  match names with
  | [] => []
  | name :: rest => sheet_row width r name :: sheet_rows width (S r) rest
  end.

(** A sheet with a leading column, the row names and [width] readings per
    row, one row per name. *)
Definition sheet (width : nat) (names : list string) : DataFrame num :=
  {| index := map (fun r => IntL (Z.of_nat r)) (seq 0 (length names));
     columns := header width;
     values := sheet_rows width 0 names |}.

(** The same readings with the row names in the first column: 13
    columns, 8 rows. *)
Definition labelled_sheet : DataFrame num :=
  {| index := map (fun r => IntL (Z.of_nat r)) (seq 0 8);
     columns := CellL (Text "<>") :: map (fun c => CellL (Num (ncount c))) (seq 1 12);
     values := map (skipn 1) (sheet_rows 12 0 letters) |}.

(** Three rows only, and text where the last reading should be. *)
Definition short_sheet : DataFrame num :=
  {| index := map (fun r => IntL (Z.of_nat r)) (seq 0 3);
     columns := header 12;
     values := map (fun row => (firstn 13 row ++ [Text "n/a"])%list)
                   (sheet_rows 12 0 ["A"; "B"; "C"]) |}.

(** The sheet again under other headers, with two rows of text above the
    plate, another first column and one more column at the end. *)
Definition noisy_sheet : DataFrame num :=
  {| index := map (fun r => IntL (Z.of_nat r)) (seq 0 10);
     columns := map (fun c => CellL (Text "x")) (seq 0 15);
     values := (repeat (repeat (Text "junk") 15) 2
                ++ map (fun row => Text "?" :: skipn 1 row ++ [Text "more"])
                       (sheet_rows 12 0 letters))%list |}.

(** The readings of the full plate, and the plate cut out of the sheet. *)
Definition readings : list (list num) :=
  map (fun r => map (fun c => reading r c) (seq 0 12)) (seq 0 8).

Definition plate : DataFrame num := numeric_plate (row_labels letters) readings.

(** A standard curve to estimate with: slope 2, intercept 1/2. *)
Definition line : Curve num :=
  {| slope := ncount 2; intercept := ndiv (ncount 1) (ncount 2) |}.

End Fixture.


(** A flat standard curve in binary64: slope 0, intercept 0.5. *)
Definition flat_curve : Curve float := {| slope := 0%float; intercept := 0.5%float |}.

(** * Properties *)

Unset Implicit Arguments.
Local Open Scope nat_scope.

(** ** The Concentration Estimator *)

(** C1. For every absorbance and every fitted curve, a call of the
    estimator returns exactly (absorbance - intercept) / slope, in whatever
    arithmetic the numbers live; manual mode answers every absorbance
    entered with that value. *)
Theorem CalcConc_formula {num : Type} `{Number num} (curve : Curve num) (a : num)
    (entered : list num) :
  estimate curve a = Returns (ndiv (nsub a (intercept curve)) (slope curve))
  /\ manual curve entered
     = map (fun x => ndiv (nsub x (intercept curve)) (slope curve)) entered.
Proof.
  split; [reflexivity|].
  unfold manual. apply map_ext. intros x. reflexivity.
Qed.

(** C5. Over exact arithmetic, estimating the concentration of the
    absorbance [slope * c + intercept] gives [c] back, for every curve whose
    slope is not zero. *)
Theorem CalcConc_round_trip (curve : Curve Q) (c : Q) :
  ~ (slope curve == 0)%Q ->
  (CalcConc curve (slope curve * c + intercept curve) == c)%Q.
Proof.
  intros Hslope. unfold CalcConc. cbn [ndiv nsub exact_number].
  field. exact Hslope.
Qed.

Lemma CalcConc_round_trip_witness :
  (CalcConc {| slope := 2; intercept := 1 # 2 |} (2 * 3 + (1 # 2)) == 3)%Q.
Proof.
  apply (CalcConc_round_trip {| slope := 2; intercept := 1 # 2 |}%Q 3%Q).
  cbn [slope]. intros E. discriminate E.
Defined.

(** *** A flat standard curve *)

Module FlatCurve.

Local Open Scope float_scope.

(** Dividing by a zero of either sign never gives a finite number. *)
Lemma div_zero_not_finite (x s : float) :
  (s =? 0) = true -> is_finite (x / s) = false.
Proof.
  intros Hs. rewrite FloatAxioms.eqb_spec in Hs.
  unfold is_finite, is_nan, is_infinity.
  rewrite !FloatAxioms.eqb_spec, FloatAxioms.abs_spec, FloatAxioms.div_spec.
  change (Prim2SF infinity) with (S754_infinity false).
  change (Prim2SF 0) with (S754_zero false) in Hs.
  destruct (Prim2SF s) as [b | b | | b m e]; try discriminate Hs;
    try (destruct b; discriminate Hs).
  destruct (Prim2SF x) as [bx | bx | | bx mx ex]; try reflexivity;
    destruct bx, b; reflexivity.
Qed.

End FlatCurve.

(** C7, as the code has it. [CalcConc] has no guard on the slope: with a
    zero slope (of either sign) the estimate still returns, and what it
    returns is the IEEE quotient, an infinity or NaN, never a finite
    concentration. *)
Theorem zero_slope_estimate (a i s : float) :
  (s =? 0)%float = true ->
  exists r, estimate {| slope := s; intercept := i |} a = Returns r
            /\ r = ((a - i) / s)%float
            /\ is_finite r = false.
Proof.
  intros Hs. eexists. split; [reflexivity|]. split; [reflexivity|].
  cbn. apply FlatCurve.div_zero_not_finite. exact Hs.
Qed.

Lemma zero_slope_estimate_witness :
  exists r, estimate flat_curve 1%float = Returns r
            /\ r = ((1 - 0.5) / 0)%float
            /\ is_finite r = false.
Proof. apply (zero_slope_estimate 1%float 0.5%float 0%float). reflexivity. Defined.

(** C7, as stated, fails: on the flat curve (slope 0, intercept 0.5) the
    estimate of absorbance 1 is no error, it returns +infinity. *)
Lemma zero_slope_no_error :
  slope flat_curve = 0%float
  /\ estimate flat_curve 1%float = Returns infinity
  /\ ~ fails (estimate flat_curve 1%float).
Proof.
  split; [reflexivity|]. split; [reflexivity|].
  intros [e He]. discriminate He.
Qed.


(** ** The Table Normalizer *)

Section NormalizerFacts.

Context {num : Type} `{Number num}.

Lemma slice_length {A : Type} (a b : nat) (l : list A) :
  length (slice a b l) = Nat.min (b - a) (length l - a).
Proof. unfold slice. rewrite length_firstn, length_skipn. reflexivity. Qed.

Lemma tail_length {A : Type} (n : nat) (l : list A) :
  length (tail n l) = Nat.min n (length l).
Proof. unfold tail. rewrite length_skipn. lia. Qed.

Lemma flat_map_map {A B C : Type} (f : B -> list C) (g : A -> B) (l : list A) :
  flat_map f (map g l) = flat_map (fun a => f (g a)) l.
Proof. induction l as [|a l IH]; cbn; [reflexivity | now rewrite IH]. Qed.

(** The label of a row is the cell that follows its first cell. *)
Lemma first_of_selection (row : list (cell num)) :
  firstn 1 (slice 1 14 row) = at_position row 1.
Proof. destruct row as [|c0 [|c1 row]]; reflexivity. Qed.

Lemma rest_of_selection (row : list (cell num)) :
  skipn 1 (slice 1 14 row) = slice 2 14 row.
Proof. destruct row as [|c0 [|c1 row]]; reflexivity. Qed.

(** The outcome of [data] is decided by the number of columns alone. *)
Lemma data_by_width (df : DataFrame num) :
  data df =
    if (length (columns df) <=? 1)%nat then Raises IndexError
    else if (length (columns df) <? 14)%nat then Raises ValueError
    else Returns {| index := map CellL (column (table df) 1);
                    columns := map IntL (range 1 13);
                    values := map (slice 2 14) (values (table df)) |}.
Proof.
  unfold data, columns_to_select. cbn [columns table].
  destruct (columns df) as [|c0 [|c1 cols]]; try reflexivity.
  assert (Hlen : length (firstn 12 cols) = Nat.min 12 (length cols))
    by apply length_firstn.
  change (slice 1 14 (c0 :: c1 :: cols)) with (c1 :: firstn 12 cols).
  cbn [length Nat.leb]. 
  destruct (Nat.eqb_spec (length (firstn 12 cols)) 12) as [E|E];
    destruct (Nat.ltb_spec (S (S (length cols))) 14) as [L|L]; try lia.
  - f_equal. f_equal.
    + unfold column. rewrite flat_map_map. f_equal.
      apply flat_map_ext. intros row. apply first_of_selection.
    + rewrite map_map. apply map_ext. intros row. apply rest_of_selection.
  - reflexivity.
Qed.

Lemma column_length (df : DataFrame num) (j : nat) :
  Forall (fun row => j < length row) (values df) ->
  length (column df j) = length (values df).
Proof.
  unfold column. induction 1 as [|row rows Hrow _ IH]; [reflexivity|].
  cbn [flat_map]. rewrite length_app, IH. unfold at_position.
  destruct (nth_error row j) eqn:E; [reflexivity|].
  apply nth_error_None in E. lia.
Qed.

Lemma Forall_tail {A : Type} (P : A -> Prop) (n : nat) (l : list A) :
  Forall P l -> Forall P (tail n l).
Proof.
  intros HP. apply Forall_forall. intros x Hx. 
  unfold tail in Hx. rewrite Forall_forall in HP. apply HP.
  rewrite <- (firstn_skipn (length l - n) l). apply in_or_app. now right.
Qed.

(** C6, as the code has it. The sheet must carry the row labels in its
    second column and the readings in the twelve columns after it: for
    every well-formed sheet of at least 14 columns and at least 8 rows,
    [data] has exactly 8 rows (the last 8 of the sheet), labelled by the
    cells of the sheet's second column, and exactly 12 columns, labelled
    1 to 12, holding the sheet's columns 3 to 14. *)
Theorem data_shape (df : DataFrame num) :
  well_formed df ->
  14 <= length (columns df) ->
  8 <= length (values df) ->
  exists d, data df = Returns d
    /\ length (values d) = 8
    /\ length (index d) = 8
    /\ index d = map CellL (column (table df) 1)
    /\ columns d = map IntL [1; 2; 3; 4; 5; 6; 7; 8; 9; 10; 11; 12]%Z
    /\ Forall (fun row => length row = 12) (values d)
    /\ values d = map (slice 2 14) (tail 8 (values df)).
Proof.
  intros [Hidx Hrows] Hcols Hlen. rewrite data_by_width.
  destruct (Nat.leb_spec (length (columns df)) 1) as [L|_]; [lia|].
  destruct (Nat.ltb_spec (length (columns df)) 14) as [L|_]; [lia|].
  eexists. split; [reflexivity|]. cbn [index columns values table].
  assert (Htail : Forall (fun row => length row = length (columns df))
                         (tail 8 (values df))) by now apply Forall_tail.
  split; [|split; [|split; [|split; [|split]]]].
  - rewrite length_map, tail_length. lia.
  - rewrite length_map, column_length.
    + cbn [values table]. rewrite tail_length. lia.
    + cbn [values table]. eapply Forall_impl; [|exact Htail].
      cbn. intros row Hrow. lia.
  - reflexivity.
  - reflexivity.
  - apply Forall_map. eapply Forall_impl; [|exact Htail].
    cbv beta. intros row Hrow. rewrite slice_length. lia.
  - reflexivity.
Qed.

(** C9, as the code has it. The only shape [data] looks at is the number
    of columns: it fails exactly when the sheet has fewer than 14 columns
    (an [IndexError] up to one column, a [ValueError] from the renaming
    otherwise). Neither the number of rows nor the contents of the cells
    is examined. *)
Theorem data_fails_iff (df : DataFrame num) :
  fails (data df) <-> length (columns df) < 14.
Proof.
  rewrite data_by_width. unfold fails.
  destruct (Nat.leb_spec (length (columns df)) 1) as [L1|L1].
  - split; [lia | intros _; now exists IndexError].
  - destruct (Nat.ltb_spec (length (columns df)) 14) as [L|L].
    + split; [lia | intros _; now exists ValueError].
    + split; [intros [e He]; discriminate He | lia].
Qed.

End NormalizerFacts.

Lemma data_shape_witness :
  exists d, data (num := Q) (sheet 12 letters) = Returns d
    /\ length (values d) = 8
    /\ length (index d) = 8
    /\ index d = map CellL (column (table (sheet 12 letters)) 1)
    /\ columns d = map IntL [1; 2; 3; 4; 5; 6; 7; 8; 9; 10; 11; 12]%Z
    /\ Forall (fun row => length row = 12) (values d)
    /\ values d = map (slice 2 14) (tail 8 (values (sheet 12 letters))).
Proof.
  apply (data_shape (sheet 12 letters)).
  - split; [reflexivity|]. repeat constructor.
  - cbn. lia.
  - cbn. lia.
Defined.

(** C6, as stated, fails: a sheet whose first column holds the row labels
    A to H, followed by the 12 columns of readings, is rejected with a
    [ValueError], because the selection starts at the second column and
    leaves 11 columns beside the index. *)
Lemma labelled_sheet_rejected :
  well_formed (num := Q) labelled_sheet
  /\ length (columns (num := Q) labelled_sheet) = 13
  /\ column (num := Q) labelled_sheet 0 = map Text letters
  /\ data (num := Q) labelled_sheet = Raises ValueError.
Proof.
  split; [|repeat split].
  split; [reflexivity|]. repeat constructor.
Qed.

(** C9, as stated, fails: a sheet of 3 rows (not 8) with the text "n/a"
    in a reading's place goes through the normaliser, which returns a
    plate of 3 rows with the text cell in it. *)
Lemma short_sheet_accepted :
  length (values (num := Q) short_sheet) = 3
  /\ In (Text "n/a") (concat (values (num := Q) short_sheet))
  /\ (exists d, data (num := Q) short_sheet = Returns d
                /\ length (values d) = 3
                /\ In (Text "n/a") (concat (values d)))
  /\ ~ fails (data (num := Q) short_sheet).
Proof.
  split; [reflexivity|]. split; [cbn; tauto|]. split.
  - eexists. split; [reflexivity|]. split; [reflexivity|]. cbn. tauto.
  - intros [e He]. discriminate He.
Qed.


(** ** Text *)

Module StrFacts.

Import Str.

Lemma digit_not_space (c : ascii) : char_isdigit c = true -> char_isspace c = false.
Proof.
  destruct c as [[] [] [] [] [] [] [] []]; intros Hd;
    solve [reflexivity | discriminate Hd].
Qed.

Lemma digit_not_sign (c : ascii) :
  char_isdigit c = true -> c <> "+"%char /\ c <> "-"%char.
Proof.
  destruct c as [[] [] [] [] [] [] [] []]; intros Hd;
    solve [split; discriminate | discriminate Hd].
Qed.

Lemma rstrip_id (s : string) : all (fun c => negb (char_isspace c)) s = true -> rstrip s = s.
Proof.
  induction s as [|c s IH]; [reflexivity|].
  cbn [all rstrip]. intros Hall. apply andb_prop in Hall as [Hc Hs].
  rewrite (IH Hs). apply negb_true_iff in Hc. destruct s; [now rewrite Hc | reflexivity].
Qed.

Lemma all_impl (p q : ascii -> bool) (s : string) :
  (forall c, p c = true -> q c = true) -> all p s = true -> all q s = true.
Proof.
  intros Hpq. induction s as [|c s IH]; [reflexivity|].
  cbn [all]. intros Hall. apply andb_prop in Hall as [Hc Hs].
  now rewrite (Hpq c Hc), (IH Hs).
Qed.

(** Stripping leaves a numeric token as it is. *)
Lemma strip_digits (s : string) : isdigit s = true -> strip s = s.
Proof.
  unfold isdigit. intros Hd. apply andb_prop in Hd as [Hne Hall].
  unfold strip. destruct s as [|c s]; [discriminate Hne|].
  cbn [all] in Hall. apply andb_prop in Hall as [Hc Hs].
  cbn [lstrip]. rewrite (digit_not_space c Hc).
  apply rstrip_id. cbn [all]. rewrite (digit_not_space c Hc). cbn [negb andb].
  eapply all_impl; [|exact Hs].
  intros d Hdig. now rewrite (digit_not_space d Hdig).
Qed.

Lemma int_digits_all (s : string) (acc : Z) (after_digit : bool) :
  all char_isdigit s = true ->
  nonempty s || after_digit = true ->
  exists k, int_digits acc after_digit s = Some k.
Proof.
  revert acc after_digit. induction s as [|c s IH]; intros acc after_digit Hall Hne.
  - cbn in Hne. subst after_digit. now exists acc.
  - cbn [all] in Hall. apply andb_prop in Hall as [Hc Hs].
    cbn [int_digits]. rewrite Hc. apply IH; [exact Hs|].
    apply orb_true_r.
Qed.

Lemma digit_not_blank (c : ascii) : char_isdigit c = true -> char_isblank c = false.
Proof.
  destruct c as [[] [] [] [] [] [] [] []]; intros Hd;
    solve [reflexivity | discriminate Hd].
Qed.

Lemma rtrim_id (s : string) : all (fun c => negb (char_isblank c)) s = true -> rtrim s = s.
Proof.
  induction s as [|c s IH]; [reflexivity|].
  cbn [all rtrim]. intros Hall. apply andb_prop in Hall as [Hc Hs].
  rewrite (IH Hs). apply negb_true_iff in Hc. destruct s; [now rewrite Hc | reflexivity].
Qed.

(** Trimming leaves a numeric token as it is. *)
Lemma trim_digits (s : string) : isdigit s = true -> trim s = s.
Proof.
  unfold isdigit. intros Hd. apply andb_prop in Hd as [Hne Hall].
  unfold trim. destruct s as [|c s]; [discriminate Hne|].
  cbn [all] in Hall. apply andb_prop in Hall as [Hc Hs].
  cbn [ltrim]. rewrite (digit_not_blank c Hc).
  apply rtrim_id. cbn [all]. rewrite (digit_not_blank c Hc). cbn [negb andb].
  eapply all_impl; [|exact Hs].
  intros d Hdig. now rewrite (digit_not_blank d Hdig).
Qed.

(** A numeric token always reads as an integer. *)
Lemma isdigit_int (s : string) : isdigit s = true -> exists k, int s = Some k.
Proof.
  intros Hd. unfold int. rewrite (trim_digits s Hd).
  unfold isdigit in Hd. apply andb_prop in Hd as [Hne Hall].
  destruct s as [|c s]; [discriminate Hne|].
  assert (Hc : char_isdigit c = true)
    by (cbn [all] in Hall; now apply andb_prop in Hall as [Hc _]).
  destruct (digit_not_sign c Hc) as [Hplus Hminus].
  assert (Hgo : exists k, int_digits 0 false (String c s) = Some k)
    by (apply int_digits_all; [exact Hall | reflexivity]).
  destruct c as [[] [] [] [] [] [] [] []];
    solve [exact Hgo | discriminate Hc | now elim Hplus | now elim Hminus].
Qed.

Lemma isdigit_first (c : ascii) (s : string) :
  isdigit (String c s) = true -> char_isdigit c = true.
Proof.
  unfold isdigit. cbn [nonempty all andb]. intros Hall.
  now apply andb_prop in Hall as [Hc _].
Qed.

End StrFacts.


(** ** Frames *)

Section FrameFacts.

Context {num : Type} `{Number num}.

Lemma mapM_Returns {A B : Type} (f : A -> outcome B) (g : A -> B) (l : list A) :
  Forall (fun a => f a = Returns (g a)) l -> mapM f l = Returns (map g l).
Proof.
  induction 1 as [|a l Ha _ IH]; [reflexivity|].
  cbn [mapM map]. rewrite Ha. cbn [bind]. now rewrite IH.
Qed.

Lemma mapM_Raises {A B : Type} (f : A -> outcome B) (e : exn) (l : list A) :
  Forall (fun a => f a = Raises e \/ exists b, f a = Returns b) l ->
  Exists (fun a => f a = Raises e) l ->
  mapM f l = Raises e.
Proof.
  induction 1 as [|a l Ha _ IH]; intros Hex; [inversion Hex|].
  cbn [mapM]. destruct Ha as [Ha | [b Ha]]; rewrite Ha; cbn [bind]; [reflexivity|].
  inversion Hex as [? ? Hhere | ? ? Hlater]; subst; [congruence|].
  now rewrite (IH Hlater).
Qed.

Lemma mapM_map {A B C : Type} (f : B -> outcome C) (h : A -> B) (l : list A) :
  mapM f (map h l) = mapM (fun a => f (h a)) l.
Proof. induction l as [|a l IH]; cbn; [reflexivity | now rewrite IH]. Qed.

Lemma concat_singletons {A B : Type} (f : A -> B) (l : list A) :
  concat (map (fun a => [f a]) l) = map f l.
Proof. induction l as [|a l IH]; cbn; [reflexivity | now rewrite IH]. Qed.

Lemma pick_nth {A : Type} (d : A) (js : list nat) (row : list A) :
  Forall (fun j => j < length row) js ->
  pick js row = map (fun j => nth j row d) js.
Proof.
  unfold pick. induction 1 as [|j js Hj _ IH]; [reflexivity|].
  cbn [flat_map map]. rewrite IH. unfold at_position.
  destruct (nth_error row j) eqn:E.
  - now rewrite (nth_error_nth _ _ d E).
  - apply nth_error_None in E. lia.
Qed.

Lemma mean_numbers (xs : list num) : mean (map Num xs) = Returns (nanmean xs).
Proof.
  unfold mean. rewrite (mapM_Returns as_number (fun c => match c with Num x => x | Text _ => nzero end)).
  - cbn [bind]. do 2 f_equal. rewrite map_map. cbn. apply map_id.
  - apply Forall_map. apply Forall_forall. reflexivity.
Qed.

(** Row means over chosen positions of a numeric table. *)
Lemma means_of_selection (w : nat) (js : list nat) (m : list (list num)) :
  Forall (fun row => length row = w) m ->
  Forall (fun j => j < w) js ->
  mapM mean (map (pick js) (map (map Num) m))
  = Returns (map (fun row => nanmean (map (fun j => nth j row nzero) js)) m).
Proof.
  intros Hm Hjs. rewrite map_map, mapM_map.
  apply mapM_Returns. eapply Forall_impl; [|exact Hm]. cbv beta.
  intros row Hrow. rewrite (pick_nth (Num nzero)).
  - rewrite <- mean_numbers. f_equal. rewrite map_map.
    apply map_ext. intros j. apply (map_nth Num).
  - rewrite length_map, Hrow. exact Hjs.
Qed.

Lemma lookup_column (k : Z) :
  (1 <= k <= 12)%Z ->
  lookup (IntKey k) (map (@IntL num) (range 1 13)) = Returns [Z.to_nat k - 1].
Proof.
  intros Hk.
  assert (Hcases : (k = 1 \/ k = 2 \/ k = 3 \/ k = 4 \/ k = 5 \/ k = 6 \/ k = 7
                    \/ k = 8 \/ k = 9 \/ k = 10 \/ k = 11 \/ k = 12)%Z) by lia.
  repeat (destruct Hcases as [-> | Hcases]; [reflexivity|]).
  subst k. reflexivity.
Qed.

Lemma positions_absent (s : string) (names : list string) (from : nat) :
  ~ In s names -> positions (StrKey s) from (row_labels (num := num) names) = [].
Proof.
  revert from. induction names as [|a names IH]; intros from Hnot; [reflexivity|].
  cbn [row_labels map positions key_matches].
  destruct (String.eqb_spec s a) as [->|_].
  - elim Hnot. now left.
  - apply IH. intros Hin. apply Hnot. now right.
Qed.

Lemma positions_row (s : string) (names : list string) (from : nat) :
  NoDup names -> In s names ->
  positions (StrKey s) from (row_labels (num := num) names) = [from + row_of names s].
Proof.
  intros Hnd. revert from. induction Hnd as [|a names Ha _ IH]; intros from Hin; [elim Hin|].
  cbn [row_labels map positions key_matches row_of].
  destruct (String.eqb_spec s a) as [->|Hne].
  - fold (row_labels (num := num) names). rewrite (positions_absent a names (S from) Ha).
    now rewrite Nat.add_0_r.
  - destruct Hin as [->|Hin]; [now elim Hne|].
    fold (row_labels (num := num) names). rewrite (IH (S from) Hin). f_equal. lia.
Qed.

Lemma row_of_bound (s : string) (names : list string) :
  In s names -> row_of names s < length names.
Proof.
  induction names as [|a names IH]; intros Hin; [elim Hin|].
  cbn [row_of length]. destruct (String.eqb_spec s a) as [->|Hne]; [lia|].
  destruct Hin as [->|Hin]; [now elim Hne|]. specialize (IH Hin). lia.
Qed.

Lemma lookup_row (s : string) (names : list string) :
  NoDup names -> In s names ->
  lookup (StrKey s) (row_labels (num := num) names) = Returns [row_of names s].
Proof.
  intros Hnd Hin. unfold lookup. now rewrite (positions_row s names 0 Hnd Hin).
Qed.

Lemma column_numeric (idx : list (label num)) (m : list (list num)) (j : nat) :
  Forall (fun row => length row = 12) m -> j < 12 ->
  column (numeric_plate idx m) j = map Num (map (fun row => nth j row nzero) m).
Proof.
  intros Hm Hj. unfold column, numeric_plate. cbn [values].
  induction Hm as [|row m Hrow _ IH]; [reflexivity|].
  cbn [map flat_map]. rewrite IH. unfold at_position.
  destruct (nth_error (map Num row) j) eqn:E.
  - rewrite <- (nth_error_nth _ _ (Num nzero) E). now rewrite (map_nth Num).
  - apply nth_error_None in E. rewrite length_map in E. lia.
Qed.

Lemma transpose_numeric (idx : list (label num)) (m : list (list num)) :
  Forall (fun row => length row = 12) m ->
  transpose (numeric_plate idx m)
  = {| index := map IntL (range 1 13);
       columns := idx;
       values := map (map Num) (turned m) |}.
Proof.
  intros Hm. unfold transpose. f_equal.
  unfold turned. rewrite map_map.
  change (length (columns (numeric_plate idx m))) with 12.
  apply map_ext_in. intros j Hj. apply in_seq in Hj.
  apply column_numeric; [exact Hm | lia].
Qed.

Lemma nth_error_head {A : Type} (n i : nat) (l : list A) :
  i < n -> nth_error (firstn n l) i = nth_error l i.
Proof.
  intros Hi. rewrite nth_error_firstn.
  destruct (Nat.ltb_spec i n); [reflexivity | lia].
Qed.

End FrameFacts.


(** ** The Standard Curve Fitter *)

Section FitterFacts.

Context {num : Type} `{Number num}.

Lemma names_column_bound (t : string) : names_column t -> column_of t < 12.
Proof. intros [k [Hint Hk]]. unfold column_of. rewrite Hint. lia. Qed.

(** The vertical branch on a plate of numbers: one mean per row, over the
    columns the tokens name. *)
Lemma vertical_on_plate (idx : list (label num)) (m : list (list num))
    (n : nat) (tokens : list string) :
  Forall (fun row => length row = 12) m ->
  Forall names_column tokens ->
  exists ks,
    vertical (numeric_plate idx m) n tokens
    = Returns (Columns ks,
               Some {| s_index := firstn n idx;
                       s_values := firstn n (map (fun row =>
                           nanmean (map (fun t => nth (column_of t) row nzero) tokens)) m) |}).
Proof.
  intros Hm Htok.
  set (iv := fun t => match Str.int t with Some k => k | None => 0%Z end).
  exists (map iv tokens). unfold vertical.
  rewrite (mapM_Returns to_int iv).
  2:{ eapply Forall_impl; [|exact Htok]. intros t [k [Hint _]].
      unfold to_int, iv. now rewrite Hint. }
  cbn [bind]. unfold getitem_list. cbn [columns numeric_plate].
  rewrite map_map, mapM_map.
  rewrite (mapM_Returns _ (fun t => [column_of t])).
  2:{ eapply Forall_impl; [|exact Htok]. intros t [k [Hint Hk]].
      unfold iv, column_of. rewrite Hint. now apply lookup_column. }
  cbn [bind]. rewrite concat_singletons.
  unfold mean_axis1. cbn [values index numeric_plate].
  rewrite (means_of_selection 12).
  - cbn [bind]. unfold series_head. cbn [s_index s_values].
    do 5 f_equal. apply map_ext. intros row. now rewrite map_map.
  - exact Hm.
  - apply Forall_map. eapply Forall_impl; [|exact Htok].
    intros t. apply names_column_bound.
Qed.

Lemma turned_rows (m : list (list num)) :
  Forall (fun row => length row = length m) (turned m).
Proof.
  unfold turned. apply Forall_map. apply Forall_forall. intros j _.
  apply length_map.
Qed.

(** The horizontal branch on a plate of numbers: one mean per column, over
    the rows the upper-cased tokens name. *)
Lemma horizontal_on_plate (names : list string) (m : list (list num))
    (n : nat) (tokens : list string) :
  Forall (fun row => length row = 12) m ->
  NoDup names ->
  length names = length m ->
  Forall (fun t => In (Str.upper t) names) tokens ->
  horizontal (numeric_plate (row_labels names) m) n tokens
  = Returns (Tokens (map Str.upper tokens),
             Some {| s_index := firstn n (map IntL (range 1 13));
                     s_values := firstn n (map (fun col =>
                         nanmean (map (fun t => nth (row_of names (Str.upper t)) col nzero)
                                      tokens)) (turned m)) |}).
Proof.
  intros Hm Hnd Hlen Htok. unfold horizontal.
  rewrite (transpose_numeric _ _ Hm).
  unfold getitem_list. cbn [columns].
  rewrite !map_map, mapM_map.
  rewrite (mapM_Returns _ (fun t => [row_of names (Str.upper t)])).
  2:{ eapply Forall_impl; [|exact Htok]. intros t Hin. now apply lookup_row. }
  cbn [bind]. rewrite concat_singletons.
  unfold mean_axis1. cbn [values index].
  rewrite (means_of_selection (length m)).
  - cbn [bind]. unfold series_head. cbn [s_index s_values].
    do 5 f_equal. apply map_ext. intros row. now rewrite map_map.
  - apply turned_rows.
  - apply Forall_map. eapply Forall_impl; [|exact Htok].
    intros t Hin. rewrite <- Hlen. now apply row_of_bound.
Qed.

Lemma turned_well (m : list (list num)) (i r : nat) :
  i < 12 ->
  nth r (nth i (turned m) []) nzero = well m r i.
Proof.
  intros Hi. unfold turned, well.
  rewrite (nth_indep _ [] (map (fun row => nth 0 row nzero) m)).
  2:{ rewrite length_map, length_seq. exact Hi. }
  rewrite (map_nth (fun j => map (fun row => nth j row nzero) m)).
  rewrite seq_nth by exact Hi. cbn [Nat.add].
  destruct (Nat.lt_ge_cases r (length m)) as [Hr|Hr].
  - rewrite (nth_indep _ nzero (nth i [] nzero)) by now rewrite length_map.
    apply (map_nth (fun row => nth i row nzero)).
  - rewrite (nth_overflow (map _ m)) by now rewrite length_map.
    rewrite (nth_overflow m) by exact Hr. now destruct i.
Qed.

End FitterFacts.

Module CharFacts.

Import Str.

Lemma alpha_not_digit (c : ascii) : char_isalpha c = true -> char_isdigit c = false.
Proof.
  destruct c as [[] [] [] [] [] [] [] []]; intros Ha;
    solve [reflexivity | discriminate Ha].
Qed.

Lemma isalpha_not_isdigit (s : string) : isalpha s = true -> isdigit s = false.
Proof.
  unfold isalpha, isdigit. destruct s as [|c s]; [discriminate|].
  cbn [nonempty all andb]. intros Ha. apply andb_prop in Ha as [Hc _].
  now rewrite (alpha_not_digit c Hc).
Qed.

End CharFacts.

Section FitterClaims.

Context {num : Type} `{Number num}.

(** The branch of [StandardCurve] is chosen by the first token. *)
Lemma StandardCurve_try_first (data : DataFrame num) (conc : list num)
    (first : string) (rest : list string) :
  StandardCurve_try data conc (first :: rest)
  = if Str.isdigit (Str.strip first)
    then vertical data (length conc) (map Str.strip (first :: rest))
    else if Str.isalpha (Str.strip first)
    then horizontal data (length conc) (map Str.strip (first :: rest))
    else Returns (Tokens (map Str.strip (first :: rest)), None).
Proof. reflexivity. Qed.

(** C2, as the code has it. On a plate of numbers with columns 1 to 12:
    - when every (stripped) location token is numeric and names one of the
      12 columns, and there are no more concentrations than plate rows,
      the mean absorbances are as many as the concentrations, and the one
      at index [i] is the mean of the readings of row [i] in the named
      columns;
    - when every token is alphabetic and, upper-cased, is one of the
      (distinct) row names, and there are at most 12 concentrations, the
      same holds for the turned plate: the mean at index [i] is the mean of
      the readings of column position [i] in the named rows. *)
Theorem StandardCurve_means (names : list string) (m : list (list num))
    (conc : list num) (units input : list string) :
  Forall (fun row => length row = 12) m ->
  input <> [] ->
  (Forall (fun t => Str.isdigit t = true /\ names_column t) (map Str.strip input) ->
   length conc <= length m ->
   exists r s,
     StandardCurve (numeric_plate (row_labels names) m) conc units input = Some r
     /\ new_data r = Some s
     /\ length (s_values s) = length conc
     /\ forall i, i < length conc ->
          nth_error (s_values s) i
          = Some (nanmean (map (fun t => well m i (column_of (Str.strip t))) input)))
  /\
  (NoDup names ->
   length names = length m ->
   Forall (fun t => Str.isalpha t = true /\ In (Str.upper t) names) (map Str.strip input) ->
   length conc <= 12 ->
   exists r s,
     StandardCurve (numeric_plate (row_labels names) m) conc units input = Some r
     /\ new_data r = Some s
     /\ length (s_values s) = length conc
     /\ forall i, i < length conc ->
          nth_error (s_values s) i
          = Some (nanmean (map (fun t => well m (row_of names (Str.upper (Str.strip t))) i)
                               input))).
Proof.
  intros Hm Hne. destruct input as [|first rest]; [now elim Hne|]. split.
  - intros Htok Hn.
    assert (Hfirst : Str.isdigit (Str.strip first) = true)
      by (inversion Htok as [|? ? [Hd _] _]; exact Hd).
    destruct (vertical_on_plate (row_labels names) m (length conc)
                (map Str.strip (first :: rest)) Hm) as [ks Hv].
    { eapply Forall_impl; [|exact Htok]. now intros t [_ Hc]. }
    unfold StandardCurve. rewrite StandardCurve_try_first, Hfirst, Hv.
    eexists. eexists. split; [reflexivity|]. split; [reflexivity|].
    cbn [s_values]. split.
    + rewrite length_firstn, length_map. lia.
    + intros i Hi. rewrite (nth_error_head _ _ _ Hi).
      rewrite nth_error_map.
      rewrite (nth_error_nth' m [] (n := i)) by lia. cbn [option_map].
      f_equal. f_equal. now rewrite map_map.
  - intros Hnd Hlen Htok Hn.
    assert (Hfirst : Str.isalpha (Str.strip first) = true)
      by (inversion Htok as [|? ? [Ha _] _]; exact Ha).
    pose proof (horizontal_on_plate names m (length conc)
                  (map Str.strip (first :: rest)) Hm Hnd Hlen) as Hh.
    unfold StandardCurve. rewrite StandardCurve_try_first.
    rewrite (CharFacts.isalpha_not_isdigit _ Hfirst), Hfirst, Hh.
    2:{ eapply Forall_impl; [|exact Htok]. now intros t [_ Hin]. }
    eexists. eexists. split; [reflexivity|]. split; [reflexivity|].
    cbn [s_values]. split.
    + rewrite length_firstn, length_map. unfold turned.
      rewrite length_map, length_seq. lia.
    + intros i Hi. rewrite (nth_error_head _ _ _ Hi).
      rewrite nth_error_map.
      rewrite (nth_error_nth' (turned m) [] (n := i))
        by (unfold turned; rewrite length_map, length_seq; lia).
      cbn [option_map]. f_equal. f_equal.
      rewrite map_map. apply map_ext. intros t. apply turned_well. lia.
Qed.

End FitterClaims.

Lemma letters_distinct : NoDup letters.
Proof.
  unfold letters.
  repeat (constructor; [cbn; intuition discriminate|]). constructor.
Defined.

Lemma readings_rows : Forall (fun row => length row = 12) (readings (num := Q)).
Proof. repeat constructor. Defined.

Lemma StandardCurve_means_witness :
  (exists r s,
     StandardCurve (num := Q) plate [0; 1; 2]%Q ["mg"; "mL"] ["3"; " 4"; "5 "] = Some r
     /\ new_data r = Some s
     /\ length (s_values s) = 3
     /\ forall i, i < 3 ->
          nth_error (s_values s) i
          = Some (nanmean (map (fun t => well readings i (column_of (Str.strip t)))
                               ["3"; " 4"; "5 "])))
  /\
  (exists r s,
     StandardCurve (num := Q) plate [0; 1; 2]%Q ["mg"; "mL"] ["a"; " B"] = Some r
     /\ new_data r = Some s
     /\ length (s_values s) = 3
     /\ forall i, i < 3 ->
          nth_error (s_values s) i
          = Some (nanmean (map (fun t => well readings (row_of letters (Str.upper (Str.strip t))) i)
                               ["a"; " B"]))).
Proof.
  split.
  - apply (proj1 (StandardCurve_means letters readings [0; 1; 2]%Q ["mg"; "mL"]
                    ["3"; " 4"; "5 "] readings_rows ltac:(discriminate))).
    + repeat constructor.
      * exists 3%Z. split; [reflexivity | lia].
      * exists 4%Z. split; [reflexivity | lia].
      * exists 5%Z. split; [reflexivity | lia].
    + cbn. lia.
  - apply (proj2 (StandardCurve_means letters readings [0; 1; 2]%Q ["mg"; "mL"]
                    ["a"; " B"] readings_rows ltac:(discriminate))).
    + exact letters_distinct.
    + reflexivity.
    + repeat constructor; cbn; tauto.
    + cbn. lia.
Defined.

(** C2, as stated, fails: with 9 concentrations and the standards in
    column 3 of the 8-row plate, the sequence of mean absorbances has 8
    entries, not 9. *)
Lemma nine_concentrations_eight_means :
  exists r s,
    StandardCurve (num := Q) plate [0; 1; 2; 3; 4; 5; 6; 7; 8]%Q ["mg"; "mL"] ["3"] = Some r
    /\ new_data r = Some s
    /\ length (standard_conc r) = 9
    /\ length (s_values s) = 8.
Proof.
  eexists. eexists. split; [reflexivity|]. split; [reflexivity|]. split; reflexivity.
Qed.

Section OrientationClaims.

Context {num : Type} `{Number num}.

Lemma fit_without_curve_data (data : DataFrame num) (conc : list num)
    (units input : list string) :
  (fails (StandardCurve_try data conc input)
   \/ exists w, StandardCurve_try data conc input = Returns (w, None)) ->
  fit data conc units input = Raises AttributeError.
Proof.
  unfold fit, StandardCurve. intros [[e He] | [w Hw]].
  - now rewrite He.
  - now rewrite Hw.
Qed.


Lemma positions_none (k : key) (labels : list (label num)) (from : nat) :
  Forall (fun l => key_matches k l = false) labels ->
  positions k from labels = [].
Proof.
  intros Hno. revert from. induction Hno as [|l labels Hl _ IH]; intros from; [reflexivity|].
  cbn [positions]. rewrite Hl. apply IH.
Qed.



End OrientationClaims.



(** ** The regression *)

Module Regression.

Local Open Scope Q_scope.

Lemma count_succ (n : nat) : Exact.count (S n) == Exact.count n + 1.
Proof.
  unfold Exact.count. rewrite Nat2Z.inj_succ. unfold Z.succ.
  now rewrite inject_Z_plus.
Qed.

Lemma count_nonzero (n : nat) : ~ Exact.count (S n) == 0.
Proof.
  unfold Exact.count, Qeq. cbn [Qnum Qden inject_Z]. lia.
Qed.

Lemma all_finite (X : list Q) : forallb nisfinite X = true.
Proof. induction X as [|x X IH]; [reflexivity | exact IH]. Qed.

End Regression.

Lemma StandardCurve_keeps_concentrations {num : Type} `{Number num}
    (data : DataFrame num) (conc : list num) (units input : list string)
    (r : standards num) :
  StandardCurve data conc units input = Some r -> standard_conc r = conc.
Proof.
  unfold StandardCurve.
  destruct (StandardCurve_try data conc input) as [[w means]|e]; [|discriminate].
  intros E. injection E as <-. reflexivity.
Qed.




(** ** Batch mode *)

Section BatchFacts.

Context {num : Type} `{Number num}.

Lemma sample_loop_turn (data : DataFrame num) (curve : Curve num)
    (sample : string) (rest : list string) (printed : list (report num)) :
  sample_turn data curve sample = Returns printed ->
  sample_loop data curve (sample :: rest)
  = ((printed ++ fst (sample_loop data curve rest))%list,
     snd (sample_loop data curve rest)).
Proof.
  intros Hturn. cbn [sample_loop]. rewrite Hturn.
  now destruct (sample_loop data curve rest).
Qed.

Lemma sample_loop_report (data : DataFrame num) (curve : Curve num)
    (sample : string) (rest : list string) (r : report num) :
  sample_turn data curve sample = Returns [r] ->
  sample_loop data curve (sample :: rest) = then_ r (sample_loop data curve rest).
Proof. intros Hturn. now rewrite (sample_loop_turn _ _ _ rest _ Hturn). Qed.

(** A token whose first character is neither a digit nor a letter is
    answered with the warning, whatever the plate and the curve. *)
Lemma skip_turn (data : DataFrame num) (curve : Curve num) (c : ascii) (s : string) :
  Str.char_isdigit c = false -> Str.char_isalpha c = false ->
  sample_turn data curve (String c s) = Returns [NoValidSample].
Proof. intros Hd Ha. unfold sample_turn. now rewrite Hd, Ha. Qed.

Lemma firstn_numbers (n : nat) (xs : list num) :
  mean (firstn n (map Num xs)) = Returns (nanmean (firstn n xs)).
Proof. rewrite firstn_map. apply mean_numbers. Qed.

(** The sample absorbance of a column of a plate of numbers. *)
Lemma sample_abs_column (idx : list (label num)) (m : list (list num)) (k : Z) :
  Forall (fun row => length row = 12) m ->
  (1 <= k <= 12)%Z ->
  sample_abs (numeric_plate idx m) (IntKey k)
  = Returns (nanmean (firstn 3 (plate_column m (Z.to_nat k - 1)))).
Proof.
  intros Hm Hk. unfold sample_abs.
  pose proof (lookup_column (num := num) k Hk) as Hlook. unfold lookup in Hlook.
  cbn [columns numeric_plate].
  destruct (positions (IntKey k) 0 (map IntL (range 1 13))) as [|j js];
    [discriminate Hlook|].
  injection Hlook as -> ->.
  rewrite (column_numeric idx m _ Hm) by lia.
  apply firstn_numbers.
Qed.

Lemma row_from_wells {A : Type} (d : A) (row : list A) :
  length row = 12 -> map (fun j => nth j row d) (seq 0 12) = row.
Proof.
  intros Hrow.
  do 13 (destruct row as [|? row]; try discriminate Hrow). reflexivity.
Qed.

Lemma column_turned (idx cols : list (label num)) (m : list (list num)) (r : nat) :
  Forall (fun row => length row = 12) m ->
  r < length m ->
  column {| index := idx; columns := cols; values := map (map Num) (turned m) |} r
  = map Num (plate_row m r).
Proof.
  intros Hm Hr. unfold column. cbn [values]. unfold turned.
  rewrite !map_map, flat_map_map.
  assert (Hrow : length (plate_row m r) = 12).
  { unfold plate_row. rewrite Forall_forall in Hm. apply Hm. now apply nth_In. }
  rewrite <- (row_from_wells nzero (plate_row m r) Hrow).
  rewrite map_map.
  induction (seq 0 12) as [|j js IH]; [reflexivity|].
  cbn [flat_map map]. rewrite IH. unfold at_position.
  rewrite nth_error_map, nth_error_map.
  rewrite (nth_error_nth' m [] (n := r)) by exact Hr. reflexivity.
Qed.

(** The sample absorbance of a row of a plate of numbers. *)
Lemma sample_abs_row (names : list string) (m : list (list num)) (name : string) :
  Forall (fun row => length row = 12) m ->
  NoDup names ->
  length names = length m ->
  In name names ->
  sample_abs (transpose (numeric_plate (row_labels names) m)) (StrKey name)
  = Returns (nanmean (firstn 3 (plate_row m (row_of names name)))).
Proof.
  intros Hm Hnd Hlen Hin. rewrite (transpose_numeric _ _ Hm).
  unfold sample_abs. cbn [columns].
  rewrite (positions_row name names 0 Hnd Hin). cbn [Nat.add].
  rewrite (column_turned _ _ m _ Hm)
    by (rewrite <- Hlen; now apply row_of_bound).
  apply firstn_numbers.
Qed.

(** C4, as the code has it. A sample token is classified by its first
    character. For tokens of ASCII text, on a plate of numbers with columns
    1 to 12 and distinct row names:
    - a token that starts with a digit and reads as the number of a column
      prints the estimate for the mean of the first 3 readings of that
      column;
    - a token that starts with a letter and, upper-cased, is a row name
      prints the estimate for the mean of the first 3 readings of that row;
    - a token that starts with anything else prints the warning, and an
      empty token prints nothing;
    and in each of these cases the loop goes on with the remaining
    tokens. *)
Theorem batch_by_first_character (names : list string) (m : list (list num))
    (curve : Curve num) (c : ascii) (s : string) (rest : list string) :
  Forall (fun row => length row = 12) m ->
  NoDup names ->
  length names = length m ->
  Forall (fun t => Str.is_ascii t = true) (String c s :: rest) ->
  (Str.char_isdigit c = true ->
   names_column (String c s) ->
   sample_loop (numeric_plate (row_labels names) m) curve (String c s :: rest)
   = then_ (Concentration (String c s)
              (CalcConc curve
                 (nanmean (firstn 3 (plate_column m (column_of (String c s)))))))
           (sample_loop (numeric_plate (row_labels names) m) curve rest))
  /\ (Str.char_isalpha c = true ->
      In (Str.upper (String c s)) names ->
      sample_loop (numeric_plate (row_labels names) m) curve (String c s :: rest)
      = then_ (Concentration (Str.upper (String c s))
                 (CalcConc curve
                    (nanmean (firstn 3
                       (plate_row m (row_of names (Str.upper (String c s))))))))
              (sample_loop (numeric_plate (row_labels names) m) curve rest))
  /\ (Str.char_isdigit c = false ->
      Str.char_isalpha c = false ->
      sample_loop (numeric_plate (row_labels names) m) curve (String c s :: rest)
      = then_ NoValidSample
              (sample_loop (numeric_plate (row_labels names) m) curve rest))
  /\ sample_loop (numeric_plate (row_labels names) m) curve (EmptyString :: rest)
     = sample_loop (numeric_plate (row_labels names) m) curve rest.
Proof.
  intros Hm Hnd Hlen _. split; [|split; [|split]].
  - intros Hd [k [Hint Hk]].
    apply sample_loop_report. unfold sample_turn. rewrite Hd.
    unfold to_int, column_of. rewrite Hint. cbn [bind].
    now rewrite (sample_abs_column _ m k Hm Hk).
  - intros Ha Hin.
    apply sample_loop_report. unfold sample_turn.
    rewrite (CharFacts.alpha_not_digit c Ha), Ha.
    now rewrite (sample_abs_row names m _ Hm Hnd Hlen Hin).
  - intros Hd Ha. apply sample_loop_report. now apply skip_turn.
  - cbn [sample_loop sample_turn].
    now destruct (sample_loop (numeric_plate (row_labels names) m) curve rest).
Qed.

Lemma turn_prints_for_digit_or_letter (data : DataFrame num) (curve : Curve num)
    (sample name : string) (v : num) (printed : list (report num)) :
  sample_turn data curve sample = Returns printed ->
  In (Concentration name v) printed ->
  exists c s, sample = String c s
              /\ (Str.char_isdigit c = true \/ Str.char_isalpha c = true).
Proof.
  unfold sample_turn. destruct sample as [|c s].
  - intros E. injection E as <-. intros [].
  - intros E Hin. exists c, s. split; [reflexivity|].
    destruct (Str.char_isdigit c); [now left|].
    destruct (Str.char_isalpha c); [now right|].
    injection E as <-. destruct Hin as [Hin|[]]. discriminate Hin.
Qed.

Lemma loop_prints_for_digit_or_letter (data : DataFrame num) (curve : Curve num)
    (samples : list string) (name : string) (v : num) :
  In (Concentration name v) (fst (sample_loop data curve samples)) ->
  exists c s, In (String c s) samples
              /\ (Str.char_isdigit c = true \/ Str.char_isalpha c = true).
Proof.
  induction samples as [|sample rest IH]; [intros []|].
  cbn [sample_loop].
  destruct (sample_turn data curve sample) as [printed|e] eqn:Hturn; [|intros []].
  destruct (sample_loop data curve rest) as [more e]. cbn [fst] in *.
  intros Hin. apply in_app_or in Hin as [Hin|Hin].
  - destruct (turn_prints_for_digit_or_letter _ _ _ _ _ _ Hturn Hin) as (c & s & -> & Hc).
    exists c, s. split; [now left | exact Hc].
  - destruct (IH Hin) as (c & s & Hs & Hc).
    exists c, s. split; [now right | exact Hc].
Qed.

(** C10. The loop looks at the first character of the token as typed:
    [sample.strip()] changes nothing. Splitting "3, 4" at the comma gives
    the tokens "3" and " 4"; the token " 4" (which stripped would be "4"),
    like every token whose first character is an ASCII character that is
    neither a digit nor a letter, is answered with the warning and
    skipped; and on a line of ASCII text every concentration the loop
    prints comes from a token whose first character is a digit or a
    letter. *)
Theorem unstripped_token_skipped :
  Str.split_comma "3, 4" = ["3"; " 4"]
  /\ Str.strip " 4" = "4"
  /\ (forall (data : DataFrame num) (curve : Curve num) (rest : list string),
        sample_loop data curve (" 4" :: rest)
        = then_ NoValidSample (sample_loop data curve rest))
  /\ (forall (data : DataFrame num) (curve : Curve num) (c : ascii) (s : string)
             (rest : list string),
        Str.char_isascii c = true ->
        Str.char_isdigit c = false ->
        Str.char_isalpha c = false ->
        sample_loop data curve (String c s :: rest)
        = then_ NoValidSample (sample_loop data curve rest))
  /\ (forall (data : DataFrame num) (curve : Curve num) (line name : string) (v : num),
        Str.is_ascii line = true ->
        In (Concentration name v) (fst (batch data curve line)) ->
        exists c s, In (String c s) (Str.split_comma line)
                    /\ (Str.char_isdigit c = true \/ Str.char_isalpha c = true)).
Proof.
  split; [reflexivity|]. split; [reflexivity|]. split; [|split].
  - intros data curve rest. apply sample_loop_report. now apply skip_turn.
  - intros data curve c s rest _ Hd Ha. apply sample_loop_report. now apply skip_turn.
  - intros data curve line name v _. apply loop_prints_for_digit_or_letter.
Qed.

End BatchFacts.

Lemma batch_by_first_character_witness :
  sample_loop (num := Q) plate line ["3"; "b"]
  = then_ (Concentration "3"
             (CalcConc line (nanmean (firstn 3 (plate_column readings (column_of "3"))))))
          (sample_loop plate line ["b"])
  /\ sample_loop (num := Q) plate line ["b"; "?"]
     = then_ (Concentration "B"
                (CalcConc line (nanmean (firstn 3 (plate_row readings (row_of letters "B"))))))
             (sample_loop plate line ["?"])
  /\ sample_loop (num := Q) plate line ["?"; "4"]
     = then_ NoValidSample (sample_loop plate line ["4"])
  /\ sample_loop (num := Q) plate line [""; "4"] = sample_loop plate line ["4"].
Proof.
  split; [|split; [|split]].
  - destruct (batch_by_first_character (num := Q) letters readings line "3" "" ["b"]
                readings_rows letters_distinct eq_refl
                ltac:(repeat constructor)) as (Hdigit & _).
    apply Hdigit; [reflexivity|]. exists 3%Z. split; [reflexivity | lia].
  - destruct (batch_by_first_character (num := Q) letters readings line "b" "" ["?"]
                readings_rows letters_distinct eq_refl
                ltac:(repeat constructor)) as (_ & Hletter & _).
    apply Hletter; [reflexivity|]. cbn. tauto.
  - destruct (batch_by_first_character (num := Q) letters readings line "?" "" ["4"]
                readings_rows letters_distinct eq_refl
                ltac:(repeat constructor)) as (_ & _ & Hother & _).
    apply Hother; reflexivity.
  - destruct (batch_by_first_character (num := Q) letters readings line "?" "" ["4"]
                readings_rows letters_distinct eq_refl
                ltac:(repeat constructor)) as (_ & _ & _ & Hempty).
    exact Hempty.
Defined.

(** C4, as stated, fails: the token "3x" is neither numeric nor
    alphabetic, yet it is not skipped with a warning: it starts with a
    digit, [int] rejects it, and the [ValueError] ends the batch before the
    valid token "4" is reached. Alone, "4" yields its concentration. *)
Lemma malformed_token_ends_batch :
  Str.isdigit "3x" = false
  /\ Str.isalpha "3x" = false
  /\ batch (num := float) plate {| slope := 2; intercept := 0.5 |}%float "3x,4"
     = ([], Some ValueError)
  /\ batch (num := float) plate {| slope := 2; intercept := 0.5 |}%float "4"
     = ([Concentration "4" 0.25%float], None).
Proof.
  split; [reflexivity|]. split; [reflexivity|]. split; vm_compute; reflexivity.
Qed.

Lemma unstripped_token_skipped_witness :
  sample_loop (num := float) plate {| slope := 2; intercept := 0.5 |}%float [" 4"; "5"]
  = then_ NoValidSample
          (sample_loop plate {| slope := 2; intercept := 0.5 |}%float ["5"]).
Proof.
  destruct (unstripped_token_skipped (num := float)) as (_ & _ & Hskip & _).
  apply Hskip.
Defined.

(** ** The script on the sample sheet *)

Example data_of_sheet_exact : data (num := Q) (sheet 12 letters) = Returns plate.
Proof. reflexivity. Qed.

Example data_of_sheet_binary64 : data (num := float) (sheet 12 letters) = Returns plate.
Proof. reflexivity. Qed.

(** "3, 4" prints one concentration and one warning; "3,4" prints two
    concentrations. *)
Example batch_with_space :
  batch (num := float) plate {| slope := 2; intercept := 0.5 |}%float "3, 4"
  = ([Concentration "3" 0.21875%float; NoValidSample], None).
Proof. vm_compute. reflexivity. Qed.

Example batch_without_space :
  batch (num := float) plate {| slope := 2; intercept := 0.5 |}%float "3,4"
  = ([Concentration "3" 0.21875%float; Concentration "4" 0.25%float], None).
Proof. vm_compute. reflexivity. Qed.

Example batch_on_flat_curve :
  batch (num := float) plate flat_curve "3" = ([Concentration "3" infinity], None).
Proof. vm_compute. reflexivity. Qed.

Example int_reads_signs_and_underscores :
  Str.int "+4" = Some 4%Z /\ Str.int "1_2" = Some 12%Z /\ Str.int " 4 " = Some 4%Z
  /\ Str.int "3x" = None /\ Str.int "" = None /\ Str.int "1__2" = None.
Proof. repeat split. Qed.

(** [strip] removes a separator 28..31 at the end of a token, [int] does
    not read past it. *)
Example int_keeps_separators :
  Str.strip (String "4"%char (String (ascii_of_nat 28) "")) = "4"
  /\ Str.int (String "4"%char (String (ascii_of_nat 28) "")) = None
  /\ Str.int (String "4"%char (String (ascii_of_nat 32) "")) = Some 4%Z.
Proof. repeat split. Qed.

Example round4_binary64 : F64.round4 0.1875%float = 0.1875%float.
Proof. vm_compute. reflexivity. Qed.

(** * Further properties of the script *)

(** ** The sample loop as a whole *)

Section LoopFacts.

Context {num : Type} `{Number num}.

(** X1. The loop over two runs of tokens: when the first run ends with an
    exception, nothing of the second is looked at and the reports printed
    so far stand; otherwise the reports of the second run follow those of
    the first. *)
Theorem sample_loop_app (data : DataFrame num) (curve : Curve num)
    (pre post : list string) :
  sample_loop data curve (pre ++ post)
  = match snd (sample_loop data curve pre) with
    | Some e => sample_loop data curve pre
    | None => ((fst (sample_loop data curve pre)
                ++ fst (sample_loop data curve post))%list,
               snd (sample_loop data curve post))
    end.
Proof.
  induction pre as [|sample pre IH].
  - cbn [app sample_loop fst snd]. now destruct (sample_loop data curve post).
  - cbn [app sample_loop].
    destruct (sample_turn data curve sample) as [printed|e]; [|reflexivity].
    rewrite IH.
    destruct (sample_loop data curve pre) as [more [e|]]; cbn [fst snd]; [reflexivity|].
    now rewrite app_assoc.
Qed.

Lemma split_comma_nonempty (s : string) : Str.split_comma s <> [].
Proof.
  destruct s as [|c s]; cbn [Str.split_comma]; [discriminate|].
  destruct (Ascii.eqb c ","); [discriminate|].
  destruct (Str.split_comma s); discriminate.
Qed.

Lemma split_comma_trailing (s : string) :
  Str.split_comma (s ++ ",") = (Str.split_comma s ++ [""])%list.
Proof.
  induction s as [|c s IH]; [reflexivity|].
  cbn [String.append Str.split_comma]. rewrite IH.
  destruct (Ascii.eqb c ","); [reflexivity|].
  pose proof (split_comma_nonempty s) as Hne.
  destruct (Str.split_comma s) as [|t ts]; [now elim Hne | reflexivity].
Qed.

(** X2. Empty tokens change nothing: the loop on the tokens with the empty
    ones removed prints what the loop on all tokens prints and ends the
    same way; in particular a comma typed after the last sample, as in
    "3,4,5,", has no effect. *)
Theorem empty_tokens_ignored (data : DataFrame num) (curve : Curve num)
    (samples : list string) (line : string) :
  sample_loop data curve (filter Str.nonempty samples) = sample_loop data curve samples
  /\ batch data curve (line ++ ",") = batch data curve line.
Proof.
  split.
  - induction samples as [|sample samples IH]; [reflexivity|].
    destruct sample as [|c s].
    + cbn [filter Str.nonempty sample_loop sample_turn]. rewrite IH.
      now destruct (sample_loop data curve samples).
    + cbn [filter Str.nonempty]. cbn [sample_loop]. now rewrite IH.
  - unfold batch. rewrite split_comma_trailing.
    induction (Str.split_comma line) as [|token tokens IH]; [reflexivity|].
    cbn [app sample_loop]. now rewrite IH.
Qed.

Lemma positions_outside (k : Z) (from : nat) :
  ~ (1 <= k <= 12)%Z ->
  positions (IntKey k) from (map (@IntL num) (range 1 13)) = [].
Proof.
  intros Hk. apply positions_none.
  repeat (constructor; [cbn [key_matches]; apply Z.eqb_neq; lia|]). constructor.
Qed.

(** X3. A token of ASCII text that cannot be resolved ends the batch, on
    every plate with the columns 1 to 12 and named rows: a token that
    starts with a digit but does not read as an integer raises
    [ValueError]; one that reads as an integer outside 1..12 raises
    [KeyError]; one that starts with a letter and, upper-cased, is no row
    name raises [KeyError]. Nothing is printed for it or for the tokens
    after it. *)
Theorem unresolvable_token_ends_batch (data : DataFrame num) (names : list string)
    (curve : Curve num) (c : ascii) (s : string) (rest : list string) :
  columns data = map IntL (range 1 13) ->
  index data = row_labels names ->
  Str.is_ascii (String c s) = true ->
  (Str.char_isdigit c = true ->
   Str.int (String c s) = None ->
   sample_loop data curve (String c s :: rest) = ([], Some ValueError))
  /\ (forall k, Str.char_isdigit c = true ->
      Str.int (String c s) = Some k ->
      ~ (1 <= k <= 12)%Z ->
      sample_loop data curve (String c s :: rest) = ([], Some KeyError))
  /\ (Str.char_isalpha c = true ->
      ~ In (Str.upper (String c s)) names ->
      sample_loop data curve (String c s :: rest) = ([], Some KeyError)).
Proof.
  intros Hcols Hidx _. split; [|split].
  - intros Hd Hint. cbn [sample_loop]. unfold sample_turn, to_int.
    now rewrite Hd, Hint.
  - intros k Hd Hint Hk. cbn [sample_loop]. unfold sample_turn, to_int.
    rewrite Hd, Hint. cbn [bind]. unfold sample_abs.
    now rewrite Hcols, (positions_outside k 0 Hk).
  - intros Ha Hnot. cbn [sample_loop]. unfold sample_turn.
    rewrite (CharFacts.alpha_not_digit c Ha), Ha. unfold sample_abs.
    cbn [columns transpose]. rewrite Hidx.
    now rewrite (positions_absent _ names 0 Hnot).
Qed.

End LoopFacts.

Lemma unresolvable_token_ends_batch_witness :
  sample_loop (num := Q) plate line ["3x"; "4"] = ([], Some ValueError)
  /\ sample_loop (num := Q) plate line ["13"; "4"] = ([], Some KeyError)
  /\ sample_loop (num := Q) plate line ["z"; "4"] = ([], Some KeyError).
Proof.
  split; [|split].
  - destruct (unresolvable_token_ends_batch (num := Q) plate letters line "3" "x" ["4"]
                eq_refl eq_refl eq_refl) as (Hv & _).
    apply Hv; reflexivity.
  - destruct (unresolvable_token_ends_batch (num := Q) plate letters line "1" "3" ["4"]
                eq_refl eq_refl eq_refl) as (_ & Hk & _).
    apply (Hk 13%Z); [reflexivity | reflexivity | lia].
  - destruct (unresolvable_token_ends_batch (num := Q) plate letters line "z" "" ["4"]
                eq_refl eq_refl eq_refl) as (_ & _ & Hr).
    apply Hr; [reflexivity|]. cbn. intuition discriminate.
Defined.

Lemma turn_whatever_the_curve {num : Type} `{Number num} (data : DataFrame num)
    (curve other : Curve num) (sample : string) :
  match sample_turn data curve sample, sample_turn data other sample with
  | Returns printed, Returns printed' =>
      map reported_sample printed = map reported_sample printed'
  | Raises e, Raises e' => e = e'
  | _, _ => False
  end.
Proof.
  unfold sample_turn. destruct sample as [|c s]; [reflexivity|].
  destruct (Str.char_isdigit c).
  - destruct (to_int (String c s)) as [k|e]; [|reflexivity]. cbn [bind].
    destruct (sample_abs data (IntKey k)) as [a|e]; reflexivity.
  - destruct (Str.char_isalpha c); [|reflexivity].
    destruct (sample_abs (transpose data) (StrKey (Str.upper (String c s)))) as [a|e];
      reflexivity.
Qed.

Lemma flat_turn_not_finite (data : DataFrame float) (curve : Curve float)
    (sample name : string) (v : float) (printed : list (report float)) :
  (slope curve =? 0)%float = true ->
  sample_turn data curve sample = Returns printed ->
  In (Concentration name v) printed ->
  is_finite v = false.
Proof.
  intros Hflat Hturn Hin. unfold sample_turn in Hturn. destruct sample as [|c s].
  { injection Hturn as <-. destruct Hin. }
  destruct (Str.char_isdigit c).
  - destruct (to_int (String c s)) as [k|]; [|discriminate Hturn]. cbn [bind] in Hturn.
    destruct (sample_abs data (IntKey k)) as [a|]; [|discriminate Hturn].
    injection Hturn as <-. destruct Hin as [Hin|[]]. injection Hin as _ <-.
    now apply FlatCurve.div_zero_not_finite.
  - destruct (Str.char_isalpha c).
    + destruct (sample_abs (transpose data) (StrKey (Str.upper (String c s)))) as [a|];
        [|discriminate Hturn].
      injection Hturn as <-. destruct Hin as [Hin|[]]. injection Hin as _ <-.
      now apply FlatCurve.div_zero_not_finite.
    + injection Hturn as <-. destruct Hin as [Hin|[]]. discriminate Hin.
Qed.

(** X4. A flat standard curve (slope zero, of either sign) does not stop
    the batch: in binary64 the loop ends as it ends with any other curve
    (with the same exception, or with none) and reports the same samples
    in the same order; only, every concentration it prints is an infinity
    or NaN. *)
Theorem flat_curve_batch_not_finite (data : DataFrame float)
    (curve other : Curve float) (samples : list string) :
  (slope curve =? 0)%float = true ->
  snd (sample_loop data curve samples) = snd (sample_loop data other samples)
  /\ map reported_sample (fst (sample_loop data curve samples))
     = map reported_sample (fst (sample_loop data other samples))
  /\ (forall name v,
        In (Concentration name v) (fst (sample_loop data curve samples)) ->
        is_finite v = false).
Proof.
  intros Hflat. induction samples as [|sample samples IH].
  - repeat split. intros name v [].
  - cbn [sample_loop].
    pose proof (turn_whatever_the_curve data curve other sample) as Hsame.
    pose proof (fun name v => flat_turn_not_finite data curve sample name v) as Hturn.
    destruct (sample_turn data curve sample) as [printed|e];
      destruct (sample_turn data other sample) as [printed'|e']; try contradiction.
    + destruct IH as (Hend & Hnames & Hinf).
      destruct (sample_loop data curve samples) as [more e].
      destruct (sample_loop data other samples) as [more' e'].
      cbn [fst snd] in *. split; [exact Hend|]. split.
      * now rewrite !map_app, Hsame, Hnames.
      * intros name v Hin. apply in_app_or in Hin as [Hin|Hin].
        -- exact (Hturn name v printed Hflat eq_refl Hin).
        -- exact (Hinf name v Hin).
    + cbn [fst snd]. split; [now rewrite Hsame|]. split; [reflexivity|].
      intros name v [].
Qed.

Lemma flat_curve_batch_not_finite_witness :
  snd (sample_loop plate flat_curve ["3"; "?"; "b"])
  = snd (sample_loop plate line ["3"; "?"; "b"])
  /\ map reported_sample (fst (sample_loop plate flat_curve ["3"; "?"; "b"]))
     = map reported_sample (fst (sample_loop plate line ["3"; "?"; "b"]))
  /\ (forall name v,
        In (Concentration name v) (fst (sample_loop plate flat_curve ["3"; "?"; "b"])) ->
        is_finite v = false).
Proof.
  apply (flat_curve_batch_not_finite plate flat_curve line ["3"; "?"; "b"]).
  reflexivity.
Defined.

(** ** The estimate as a function of the absorbance *)

(** X5. Over exact arithmetic the estimate lies on the standard curve: putting
    the estimated concentration into the line gives the absorbance back. *)
Theorem CalcConc_on_line (curve : Curve Q) (a : Q) :
  ~ (slope curve == 0)%Q ->
  (slope curve * CalcConc curve a + intercept curve == a)%Q.
Proof.
  intros Hslope. unfold CalcConc. cbn [ndiv nsub exact_number].
  field. exact Hslope.
Qed.

Lemma CalcConc_on_line_witness :
  (slope line * CalcConc (num := Q) line 3 + intercept line == 3)%Q.
Proof.
  apply (CalcConc_on_line line 3%Q). cbn. intros E. discriminate E.
Defined.

(** X6. Over exact arithmetic a rising curve keeps the order of absorbances
    and a falling curve reverses it; nothing bounds the estimate to the
    range of the standards. *)
Theorem CalcConc_monotone (curve : Curve Q) (a1 a2 : Q) :
  (a1 < a2)%Q ->
  ((0 < slope curve)%Q -> (CalcConc curve a1 < CalcConc curve a2)%Q)
  /\ ((slope curve < 0)%Q -> (CalcConc curve a2 < CalcConc curve a1)%Q).
Proof.
  intros Hlt. unfold CalcConc. cbn [ndiv nsub exact_number]. unfold Qdiv. split.
  - intros Hpos. apply Qmult_lt_compat_r; [now apply Qinv_lt_0_compat|].
    unfold Qminus. now apply Qplus_lt_l.
  - intros Hneg.
    assert (Hnz : ~ (slope curve == 0)%Q).
    { intros E. rewrite E in Hneg. now apply Qlt_irrefl in Hneg. }
    assert (Hopp : (0 < - slope curve)%Q).
    { apply Qlt_minus_iff in Hneg. now rewrite Qplus_0_l in Hneg. }
    assert (Hinv : (0 < - / slope curve)%Q).
    { setoid_replace (- / slope curve)%Q with (/ - slope curve)%Q
        by (field; exact Hnz).
      now apply Qinv_lt_0_compat. }
    apply Qlt_minus_iff.
    setoid_replace ((a1 - intercept curve) * / slope curve
                    + - ((a2 - intercept curve) * / slope curve))%Q
      with ((a2 + - a1) * - / slope curve)%Q by ring.
    apply Qmult_lt_0_compat; [|exact Hinv].
    now apply Qlt_minus_iff in Hlt.
Qed.

Lemma CalcConc_monotone_witness :
  (CalcConc (num := Q) line 1 < CalcConc (num := Q) line 2)%Q.
Proof.
  apply (CalcConc_monotone line 1%Q 2%Q); reflexivity.
Defined.

(** ** Upper case and white space in what is typed *)

Module CaseFacts.

Import Str Words.

Ltac by_char c := destruct c as [[] [] [] [] [] [] [] []].

Lemma upper_isdigit (c : ascii) : char_isdigit (char_upper c) = char_isdigit c.
Proof. by_char c; reflexivity. Qed.

Lemma upper_isalpha (c : ascii) : char_isalpha (char_upper c) = char_isalpha c.
Proof. by_char c; reflexivity. Qed.

Lemma upper_isspace (c : ascii) : char_isspace (char_upper c) = char_isspace c.
Proof. by_char c; reflexivity. Qed.

Lemma upper_twice (c : ascii) : char_upper (char_upper c) = char_upper c.
Proof. by_char c; reflexivity. Qed.

Lemma upper_underscore (c : ascii) :
  Ascii.eqb (char_upper c) "_" = Ascii.eqb c "_".
Proof. by_char c; reflexivity. Qed.

Lemma upper_digit_value (c : ascii) :
  char_isdigit c = true -> digit_value (char_upper c) = digit_value c.
Proof. by_char c; intros Hd; solve [reflexivity | discriminate Hd]. Qed.

Lemma upper_idempotent (s : string) : upper (upper s) = upper s.
Proof.
  induction s as [|c s IH]; [reflexivity|].
  cbn [upper]. now rewrite upper_twice, IH.
Qed.

Lemma upper_all (p : ascii -> bool) (s : string) :
  (forall c, p (char_upper c) = p c) -> all p (upper s) = all p s.
Proof.
  intros Hp. induction s as [|c s IH]; [reflexivity|].
  cbn [upper all]. now rewrite Hp, IH.
Qed.

Lemma upper_keeps_isdigit (s : string) : isdigit (upper s) = isdigit s.
Proof.
  unfold isdigit. rewrite (upper_all _ s upper_isdigit). now destruct s.
Qed.

Lemma upper_keeps_isalpha (s : string) : isalpha (upper s) = isalpha s.
Proof.
  unfold isalpha. rewrite (upper_all _ s upper_isalpha). now destruct s.
Qed.

Lemma lstrip_upper (s : string) : lstrip (upper s) = upper (lstrip s).
Proof.
  induction s as [|c s IH]; [reflexivity|].
  cbn [upper lstrip]. rewrite upper_isspace.
  destruct (char_isspace c); [exact IH | reflexivity].
Qed.

Lemma rstrip_upper (s : string) : rstrip (upper s) = upper (rstrip s).
Proof.
  induction s as [|c s IH]; [reflexivity|].
  cbn [upper rstrip]. rewrite IH, upper_isspace.
  destruct (rstrip s) as [|d r]; [|reflexivity].
  cbn [upper]. now destruct (char_isspace c).
Qed.

Lemma strip_upper (s : string) : strip (upper s) = upper (strip s).
Proof. unfold strip. now rewrite lstrip_upper, rstrip_upper. Qed.

Lemma upper_isblank (c : ascii) : char_isblank (char_upper c) = char_isblank c.
Proof. by_char c; reflexivity. Qed.

Lemma ltrim_upper (s : string) : ltrim (upper s) = upper (ltrim s).
Proof.
  induction s as [|c s IH]; [reflexivity|].
  cbn [upper ltrim]. rewrite upper_isblank.
  destruct (char_isblank c); [exact IH | reflexivity].
Qed.

Lemma rtrim_upper (s : string) : rtrim (upper s) = upper (rtrim s).
Proof.
  induction s as [|c s IH]; [reflexivity|].
  cbn [upper rtrim]. rewrite IH, upper_isblank.
  destruct (rtrim s) as [|d r]; [|reflexivity].
  cbn [upper]. now destruct (char_isblank c).
Qed.

Lemma trim_upper (s : string) : trim (upper s) = upper (trim s).
Proof. unfold trim. now rewrite ltrim_upper, rtrim_upper. Qed.

Lemma int_digits_upper (s : string) (acc : Z) (after_digit : bool) :
  int_digits acc after_digit (upper s) = int_digits acc after_digit s.
Proof.
  revert acc after_digit. induction s as [|c s IH]; intros acc after_digit; [reflexivity|].
  cbn [upper int_digits]. rewrite upper_isdigit, upper_underscore.
  destruct (char_isdigit c) eqn:Hd.
  - now rewrite (upper_digit_value c Hd), IH.
  - destruct (Ascii.eqb c "_" && after_digit); [apply IH | reflexivity].
Qed.

(** The reading of a stripped token, as [Str.int] does it. *)
Lemma int_signed (s : string) :
  int s = match trim s with
          | EmptyString => None
          | String c r =>
              if Ascii.eqb c "+" then int_digits 0 false r
              else if Ascii.eqb c "-" then option_map Z.opp (int_digits 0 false r)
              else int_digits 0 false (String c r)
          end.
Proof.
  unfold int. destruct (trim s) as [|c r]; [reflexivity|].
  by_char c; reflexivity.
Qed.

Lemma upper_sign (c : ascii) :
  Ascii.eqb (char_upper c) "+" = Ascii.eqb c "+"
  /\ Ascii.eqb (char_upper c) "-" = Ascii.eqb c "-".
Proof. by_char c; split; reflexivity. Qed.

(** Upper-casing a token does not change the integer it reads as. *)
Lemma int_upper (s : string) : int (upper s) = int s.
Proof.
  rewrite !int_signed, trim_upper.
  destruct (trim s) as [|c r]; [reflexivity|].
  cbn [upper]. destruct (upper_sign c) as [-> ->].
  rewrite !int_digits_upper.
  change (String (char_upper c) (upper r)) with (upper (String c r)).
  now rewrite int_digits_upper.
Qed.

Lemma plain_upper (s : string) : all plain s = true -> upper s = s.
Proof.
  induction s as [|c s IH]; [reflexivity|].
  cbn [all upper]. intros Hall. apply andb_prop in Hall as [Hc Hs].
  rewrite (IH Hs). unfold char_upper. unfold plain in Hc.
  apply negb_true_iff in Hc. now rewrite Hc.
Qed.

Lemma digit_or_mark_plain (c : ascii) :
  char_isdigit c = true \/ Ascii.eqb c "_" = true \/ Ascii.eqb c "+" = true
  \/ Ascii.eqb c "-" = true \/ char_isblank c = true ->
  plain c = true.
Proof.
  by_char c; intros Hc; try reflexivity;
    repeat (destruct Hc as [Hc|Hc]; [discriminate Hc|]); discriminate Hc.
Qed.

Lemma int_digits_plain (s : string) (acc : Z) (after_digit : bool) (k : Z) :
  int_digits acc after_digit s = Some k -> all plain s = true.
Proof.
  revert acc after_digit. induction s as [|c s IH]; intros acc after_digit; [reflexivity|].
  cbn [int_digits all]. destruct (char_isdigit c) eqn:Hd.
  - intros Hk. rewrite (IH _ _ Hk), digit_or_mark_plain; [reflexivity | now left].
  - destruct (Ascii.eqb c "_") eqn:Hu; [|discriminate].
    destruct after_digit; [|discriminate]. cbn [andb].
    intros Hk. rewrite (IH _ _ Hk), digit_or_mark_plain; [reflexivity | right; now left].
Qed.

Lemma ltrim_all (p : ascii -> bool) (s : string) :
  (forall c, char_isblank c = true -> p c = true) ->
  all p (ltrim s) = true -> all p s = true.
Proof.
  intros Hp. induction s as [|c s IH]; [reflexivity|].
  cbn [ltrim]. destruct (char_isblank c) eqn:Hc; [|trivial].
  intros Hall. cbn [all]. now rewrite (Hp c Hc), (IH Hall).
Qed.

Lemma rtrim_all (p : ascii -> bool) (s : string) :
  (forall c, char_isblank c = true -> p c = true) ->
  all p (rtrim s) = true -> all p s = true.
Proof.
  intros Hp. induction s as [|c s IH]; [reflexivity|].
  cbn [rtrim all]. destruct (rtrim s) as [|d r].
  - intros Hall. rewrite (IH eq_refl), andb_true_r.
    destruct (char_isblank c) eqn:Hc; [now apply Hp|].
    cbn [all] in Hall. now apply andb_prop in Hall as [Hpc _].
  - cbn [all]. intros Hall. apply andb_prop in Hall as [Hpc Hrest].
    now rewrite Hpc, (IH Hrest).
Qed.

(** A token that reads as an integer holds no lower-case letter. *)
Lemma int_some_upper (s : string) (k : Z) : int s = Some k -> upper s = s.
Proof.
  rewrite int_signed. intros Hint. apply plain_upper.
  assert (Hblank : forall c, char_isblank c = true -> plain c = true)
    by (intros c Hc; apply digit_or_mark_plain; tauto).
  apply (ltrim_all plain s Hblank). apply (rtrim_all plain _ Hblank).
  fold (trim s). destruct (trim s) as [|c r]; [reflexivity|].
  destruct (Ascii.eqb c "+") eqn:Hplus.
  - cbn [all]. rewrite (int_digits_plain _ _ _ _ Hint), digit_or_mark_plain;
      [reflexivity | tauto].
  - destruct (Ascii.eqb c "-") eqn:Hminus.
    + destruct (int_digits 0 false r) as [k'|] eqn:Hd; [|discriminate Hint].
      cbn [all]. rewrite (int_digits_plain _ _ _ _ Hd), digit_or_mark_plain;
        [reflexivity | tauto].
    + exact (int_digits_plain _ _ _ _ Hint).
Qed.

Lemma rstrip_twice (s : string) : rstrip (rstrip s) = rstrip s.
Proof.
  induction s as [|c s IH]; [reflexivity|].
  cbn [rstrip]. destruct (rstrip s) as [|d r] eqn:Hr.
  - destruct (char_isspace c) eqn:Hc; [reflexivity|].
    cbn [rstrip]. now rewrite Hc.
  - cbn [rstrip] in IH |- *. 
    change (rstrip (String c (String d r)))
      with (match rstrip (String d r) with
            | EmptyString => if char_isspace c then EmptyString else String c EmptyString
            | t => String c t
            end).
    now rewrite IH.
Qed.

Lemma lstrip_clean (s : string) : starts_clean (lstrip s) = true.
Proof.
  induction s as [|c s IH]; [reflexivity|].
  cbn [lstrip]. destruct (char_isspace c) eqn:Hc; [exact IH|].
  cbn [starts_clean]. now rewrite Hc.
Qed.

Lemma rstrip_clean (s : string) : starts_clean s = true -> starts_clean (rstrip s) = true.
Proof.
  destruct s as [|c s]; [reflexivity|].
  cbn [starts_clean rstrip]. intros Hc.
  destruct (rstrip s); [|exact Hc].
  apply negb_true_iff in Hc. rewrite Hc. cbn [starts_clean]. now rewrite Hc.
Qed.

Lemma lstrip_of_clean (s : string) : starts_clean s = true -> lstrip s = s.
Proof.
  destruct s as [|c s]; [reflexivity|].
  cbn [starts_clean lstrip]. intros Hc. apply negb_true_iff in Hc. now rewrite Hc.
Qed.

(** Stripping twice is stripping once. *)
Lemma strip_twice (s : string) : strip (strip s) = strip s.
Proof.
  unfold strip.
  rewrite (lstrip_of_clean (rstrip (lstrip s)))
    by (apply rstrip_clean, lstrip_clean).
  apply rstrip_twice.
Qed.

Lemma split_comma_upper (s : string) :
  split_comma (upper s) = map upper (split_comma s).
Proof.
  induction s as [|c s IH]; [reflexivity|].
  cbn [upper split_comma]. rewrite IH.
  assert (Hcomma : Ascii.eqb (char_upper c) "," = Ascii.eqb c ",")
    by (by_char c; reflexivity).
  rewrite Hcomma. destruct (Ascii.eqb c ","); [reflexivity|].
  now destruct (split_comma s).
Qed.

End CaseFacts.

Section TypingFacts.

Context {num : Type} `{Number num}.

Lemma sample_turn_upper (data : DataFrame num) (curve : Curve num) (sample : string) :
  sample_turn data curve (Str.upper sample) = sample_turn data curve sample.
Proof.
  destruct sample as [|c s]; [reflexivity|].
  change (Str.upper (String c s)) with (String (Str.char_upper c) (Str.upper s)).
  unfold sample_turn.
  rewrite CaseFacts.upper_isdigit, CaseFacts.upper_isalpha.
  change (String (Str.char_upper c) (Str.upper s)) with (Str.upper (String c s)).
  destruct (Str.char_isdigit c).
  - unfold to_int. rewrite CaseFacts.int_upper.
    destruct (Str.int (String c s)) as [k|] eqn:Hint; [|reflexivity].
    now rewrite (CaseFacts.int_some_upper _ _ Hint).
  - destruct (Str.char_isalpha c); [|reflexivity].
    now rewrite CaseFacts.upper_idempotent.
Qed.

(** X7. On a line of ASCII text the batch does not tell upper from lower
    case: the line typed and the same line in upper case give the same
    reports and end the same way (a row may be named "b" or "B"; the
    report names it "B"). *)
Theorem batch_ignores_case (data : DataFrame num) (curve : Curve num) (line : string) :
  Str.is_ascii line = true ->
  batch data curve (Str.upper line) = batch data curve line.
Proof.
  intros _. unfold batch. rewrite CaseFacts.split_comma_upper.
  induction (Str.split_comma line) as [|sample samples IH]; [reflexivity|].
  cbn [map sample_loop]. now rewrite sample_turn_upper, IH.
Qed.

(** X8. White space around the location tokens of the standards does not
    matter: [StandardCurve] answers the stripped tokens as it answers the
    tokens typed. (The sample loop, which does not keep the result of
    [strip], is different.) *)
Theorem StandardCurve_ignores_spaces (data : DataFrame num) (conc : list num)
    (units input : list string) :
  StandardCurve data conc units (map Str.strip input)
  = StandardCurve data conc units input.
Proof.
  unfold StandardCurve, StandardCurve_try.
  rewrite map_map.
  rewrite (map_ext (fun t => Str.strip (Str.strip t)) Str.strip CaseFacts.strip_twice).
  reflexivity.
Qed.

(** X9. For location tokens of ASCII text: when the first token is
    alphabetic, the case of the tokens does not matter: the upper-cased
    list gets the same answer, rows and means alike. *)
Theorem StandardCurve_ignores_case (data : DataFrame num) (conc : list num)
    (units : list string) (first : string) (rest : list string) :
  Forall (fun t => Str.is_ascii t = true) (first :: rest) ->
  Str.isalpha (Str.strip first) = true ->
  StandardCurve data conc units (map Str.upper (first :: rest))
  = StandardCurve data conc units (first :: rest).
Proof.
  intros _ Ha. unfold StandardCurve.
  change (map Str.upper (first :: rest)) with (Str.upper first :: map Str.upper rest).
  rewrite !StandardCurve_try_first.
  rewrite CaseFacts.strip_upper, CaseFacts.upper_keeps_isdigit,
    CaseFacts.upper_keeps_isalpha.
  rewrite (CharFacts.isalpha_not_isdigit _ Ha), Ha.
  change (Str.upper first :: map Str.upper rest) with (map Str.upper (first :: rest)).
  unfold horizontal. rewrite !map_map.
  rewrite (map_ext (fun t => StrKey (Str.upper (Str.strip (Str.upper t))))
                   (fun t => StrKey (Str.upper (Str.strip t)))).
  2:{ intros t. now rewrite CaseFacts.strip_upper, CaseFacts.upper_idempotent. }
  rewrite (map_ext (fun t => Str.upper (Str.strip (Str.upper t)))
                   (fun t => Str.upper (Str.strip t))).
  2:{ intros t. now rewrite CaseFacts.strip_upper, CaseFacts.upper_idempotent. }
  reflexivity.
Qed.

End TypingFacts.

Lemma batch_ignores_case_witness :
  batch (num := Q) plate line (Str.upper "3,b, c") = batch plate line "3,b, c".
Proof.
  apply (batch_ignores_case (num := Q) plate line "3,b, c"). reflexivity.
Defined.

Lemma StandardCurve_ignores_case_witness :
  StandardCurve (num := Q) plate [0; 1]%Q ["mg"; "mL"] (map Str.upper ["a"; " b"])
  = StandardCurve (num := Q) plate [0; 1]%Q ["mg"; "mL"] ["a"; " b"].
Proof.
  apply (StandardCurve_ignores_case (num := Q) plate [0; 1]%Q ["mg"; "mL"] "a" [" b"]).
  - repeat constructor.
  - reflexivity.
Defined.

(** ** How many means, and what the regression makes of them *)

Section CountFacts.

Context {num : Type} `{Number num}.

Lemma mapM_length {A B : Type} (f : A -> outcome B) (l : list A) (l' : list B) :
  mapM f l = Returns l' -> length l' = length l.
Proof.
  revert l'. induction l as [|a l IH]; intros l'.
  - cbn. intros E. injection E as <-. reflexivity.
  - cbn [mapM]. destruct (f a) as [b|e]; [|discriminate]. cbn [bind].
    destruct (mapM f l) as [bs|e]; [|discriminate]. cbn [bind].
    intros E. injection E as <-. cbn [length]. now rewrite (IH bs eq_refl).
Qed.

Lemma getitem_list_rows (df selected : DataFrame num) (keys : list key) :
  getitem_list df keys = Returns selected ->
  length (values selected) = length (values df).
Proof.
  unfold getitem_list.
  destruct (mapM (fun k => lookup k (columns df)) keys) as [jss|e]; [|discriminate].
  cbn [bind]. intros E. injection E as <-. cbn [values]. apply length_map.
Qed.

Lemma mean_axis1_length (df : DataFrame num) (s : Series num) :
  mean_axis1 df = Returns s -> length (s_values s) = length (values df).
Proof.
  unfold mean_axis1. destruct (mapM mean (values df)) as [ms|e] eqn:Hms; [|discriminate].
  cbn [bind]. intros E. injection E as <-. cbn [s_values].
  exact (mapM_length _ _ _ Hms).
Qed.

Lemma vertical_shape (data : DataFrame num) (n : nat) (tokens : list string)
    (w : locations) (means : option (Series num)) :
  vertical data n tokens = Returns (w, means) ->
  exists ks s, w = Columns ks /\ means = Some s
               /\ length (s_values s) = Nat.min n (length (values data)).
Proof.
  unfold vertical.
  destruct (mapM to_int tokens) as [ks|e]; [|discriminate]. cbn [bind].
  destruct (getitem_list data (map IntKey ks)) as [selected|e] eqn:Hsel; [|discriminate].
  cbn [bind].
  destruct (mean_axis1 selected) as [m|e] eqn:Hm; [|discriminate]. cbn [bind].
  intros E. injection E as <- <-. exists ks. eexists. split; [reflexivity|].
  split; [reflexivity|]. cbn [series_head s_values].
  rewrite length_firstn, (mean_axis1_length _ _ Hm), (getitem_list_rows _ _ _ Hsel).
  reflexivity.
Qed.

Lemma horizontal_shape (data : DataFrame num) (n : nat) (tokens : list string)
    (w : locations) (means : option (Series num)) :
  horizontal data n tokens = Returns (w, means) ->
  exists ts s, w = Tokens ts /\ means = Some s
               /\ length (s_values s) = Nat.min n (length (columns data)).
Proof.
  unfold horizontal.
  destruct (getitem_list (transpose data) (map StrKey (map Str.upper tokens)))
    as [selected|e] eqn:Hsel; [|discriminate].
  cbn [bind].
  destruct (mean_axis1 selected) as [m|e] eqn:Hm; [|discriminate]. cbn [bind].
  intros E. injection E as <- <-. eexists. eexists. split; [reflexivity|].
  split; [reflexivity|]. cbn [series_head s_values].
  rewrite length_firstn, (mean_axis1_length _ _ Hm), (getitem_list_rows _ _ _ Hsel).
  cbn [values transpose]. now rewrite length_map, length_seq.
Qed.

(** What [StandardCurve] hands back, on any frame: column numbers with
    means, row names with means, or the stripped tokens without means. *)
Lemma StandardCurve_shape (data : DataFrame num) (conc : list num)
    (units input : list string) (r : standards num) :
  StandardCurve data conc units input = Some r ->
  (exists ks s, standard_values_location r = Columns ks /\ new_data r = Some s
                /\ length (s_values s) = Nat.min (length conc) (length (values data)))
  \/ (exists ts s, standard_values_location r = Tokens ts /\ new_data r = Some s
                   /\ length (s_values s) = Nat.min (length conc) (length (columns data)))
  \/ (exists ts, standard_values_location r = Tokens ts /\ new_data r = None).
Proof.
  unfold StandardCurve.
  destruct (StandardCurve_try data conc input) as [[w means]|e] eqn:Htry; [|discriminate].
  intros E. injection E as <-. cbn [standard_values_location new_data].
  destruct input as [|first rest]; [discriminate Htry|].
  rewrite StandardCurve_try_first in Htry.
  destruct (Str.isdigit (Str.strip first)).
  - left. destruct (vertical_shape _ _ _ _ _ Htry) as (ks & s & -> & -> & Hlen).
    now exists ks, s.
  - destruct (Str.isalpha (Str.strip first)).
    + right. left.
      destruct (horizontal_shape _ _ _ _ _ Htry) as (ts & s & -> & -> & Hlen).
      now exists ts, s.
    + right. right. injection Htry as <- <-. now eexists.
Qed.

(** X10. The number of mean absorbances, on any frame: in vertical orientation
    (column numbers are returned) it is the number of concentrations or the
    number of rows of the plate, whichever is smaller; in horizontal
    orientation the number of concentrations or the number of columns,
    whichever is smaller. *)
Theorem means_count (data : DataFrame num) (conc : list num)
    (units input : list string) (r : standards num) (s : Series num) :
  StandardCurve data conc units input = Some r ->
  new_data r = Some s ->
  (exists ks, standard_values_location r = Columns ks
              /\ length (s_values s) = Nat.min (length conc) (length (values data)))
  \/ (exists ts, standard_values_location r = Tokens ts
                 /\ length (s_values s) = Nat.min (length conc) (length (columns data))).
Proof.
  intros Hr Hs.
  destruct (StandardCurve_shape _ _ _ _ _ Hr)
    as [(ks & s' & Hw & Hs' & Hlen) | [(ts & s' & Hw & Hs' & Hlen) | (ts & Hw & Hnone)]].
  - left. exists ks. split; [exact Hw|]. congruence.
  - right. exists ts. split; [exact Hw|]. congruence.
  - congruence.
Qed.

Lemma fit_lengths_differ (data : DataFrame num) (conc : list num)
    (units input : list string) (r : standards num) (s : Series num) :
  StandardCurve data conc units input = Some r ->
  new_data r = Some s ->
  length (s_values s) <> length conc ->
  fit data conc units input = Raises ValueError.
Proof.
  intros Hr Hs Hlen. unfold fit.
  rewrite Hr, Hs, (StandardCurve_keeps_concentrations _ _ _ _ _ Hr).
  unfold LinearRegression_fit. rewrite length_map.
  destruct (Nat.eqb_spec (length conc) (length (s_values s))) as [E|_]; [|reflexivity].
  now elim Hlen.
Qed.

(** X11. More concentrations than the plate can hold: when the standards are
    read (vertically with more concentrations than the plate has rows, or
    horizontally with more concentrations than it has columns), the
    regression is given fewer means than concentrations and raises
    [ValueError]. *)
Theorem too_many_concentrations (data : DataFrame num) (conc : list num)
    (units input : list string) (r : standards num) (s : Series num) :
  StandardCurve data conc units input = Some r ->
  new_data r = Some s ->
  (forall ks, standard_values_location r = Columns ks ->
              length (values data) < length conc ->
              fit data conc units input = Raises ValueError)
  /\ (forall ts, standard_values_location r = Tokens ts ->
                 length (columns data) < length conc ->
                 fit data conc units input = Raises ValueError).
Proof.
  intros Hr Hs.
  destruct (StandardCurve_shape _ _ _ _ _ Hr)
    as [(ks' & s' & Hw & Hs' & Hlen) | [(ts' & s' & Hw & Hs' & Hlen) | (ts' & Hw & Hnone)]];
    split; intros w Hw' Hmore; try congruence;
    apply (fit_lengths_differ _ _ _ _ _ _ Hr Hs);
    assert (s' = s) by congruence; subst s'; lia.
Qed.

Lemma to_int_outside (tokens : list string) (ks : list Z) :
  mapM to_int tokens = Returns ks ->
  Exists (fun t => exists k, Str.int t = Some k /\ ~ (1 <= k <= 12)%Z) tokens ->
  Exists (fun k => ~ (1 <= k <= 12)%Z) ks.
Proof.
  revert ks. induction tokens as [|t tokens IH]; intros ks Hks Hex; [inversion Hex|].
  cbn [mapM] in Hks. unfold to_int in Hks at 1.
  destruct (Str.int t) as [k|] eqn:Hint; [|discriminate Hks]. cbn [bind] in Hks.
  destruct (mapM to_int tokens) as [ks'|e]; [|discriminate Hks]. cbn [bind] in Hks.
  injection Hks as <-.
  inversion Hex as [? ? [k' [Hk' Hout]] | ? ? Hlater]; subst.
  - left. congruence.
  - right. now apply IH.
Qed.

(** X12. A column that is not on the plate: on every frame with the columns 1
    to 12, when the first location token is numeric and one of the tokens
    reads as an integer outside 1..12, [StandardCurve] returns its four
    [None]s and the fit fails with [AttributeError]. *)
Theorem standards_outside_plate (data : DataFrame num) (conc : list num)
    (units : list string) (first : string) (rest : list string) :
  columns data = map IntL (range 1 13) ->
  Str.isdigit (Str.strip first) = true ->
  Exists (fun t => exists k, Str.int t = Some k /\ ~ (1 <= k <= 12)%Z)
         (map Str.strip (first :: rest)) ->
  StandardCurve data conc units (first :: rest) = None
  /\ fit data conc units (first :: rest) = Raises AttributeError.
Proof.
  intros Hcols Hd Hex.
  assert (Hfails : fails (StandardCurve_try data conc (first :: rest))).
  { rewrite StandardCurve_try_first, Hd. unfold vertical.
    destruct (mapM to_int (map Str.strip (first :: rest))) as [ks|e] eqn:Hks;
      [|now exists e].
    cbn [bind]. exists KeyError. unfold getitem_list. rewrite mapM_map.
    rewrite (mapM_Raises _ KeyError); [reflexivity| |].
    - apply Forall_forall. intros k _. unfold lookup.
      destruct (positions (IntKey k) 0 (columns data)); [now left | right; now eexists].
    - eapply Exists_impl; [|exact (to_int_outside _ _ Hks Hex)].
      intros k Hout. unfold lookup. now rewrite Hcols, (positions_outside k 0 Hout). }
  split.
  - unfold StandardCurve. destruct Hfails as [e He]. now rewrite He.
  - apply fit_without_curve_data. now left.
Qed.

(** X13. The plate cut out of any well-formed sheet of at least 14 columns is
    well-formed again, has 12 columns, and has the last 8 rows of the
    sheet, or all of them when the sheet has fewer. *)
Theorem data_well_formed (df : DataFrame num) :
  well_formed df ->
  14 <= length (columns df) ->
  exists d, data df = Returns d
    /\ well_formed d
    /\ length (columns d) = 12
    /\ length (values d) = Nat.min 8 (length (values df)).
Proof.
  intros [Hidx Hrows] Hcols. rewrite data_by_width.
  destruct (Nat.leb_spec (length (columns df)) 1) as [L|_]; [lia|].
  destruct (Nat.ltb_spec (length (columns df)) 14) as [L|_]; [lia|].
  eexists. split; [reflexivity|].
  assert (Htail : Forall (fun row => length row = length (columns df))
                         (tail 8 (values df))) by now apply Forall_tail.
  split; [split|split].
  - cbn [index values table]. rewrite !length_map, column_length; [reflexivity|].
    cbn [values table]. eapply Forall_impl; [|exact Htail].
    cbv beta. intros row Hrow. lia.
  - cbn [values columns table]. apply Forall_map. eapply Forall_impl; [|exact Htail].
    cbv beta. intros row Hrow. rewrite slice_length.
    change (length (map (@IntL num) (range 1 13))) with 12. lia.
  - reflexivity.
  - cbn [values table]. rewrite length_map. apply tail_length.
Qed.

End CountFacts.

Lemma means_count_witness :
  exists r s,
    StandardCurve (num := Q) plate [0; 1; 2; 3; 4; 5; 6; 7; 8]%Q ["mg"; "mL"] ["3"] = Some r
    /\ new_data r = Some s
    /\ ((exists ks, standard_values_location r = Columns ks
                    /\ length (s_values s) = Nat.min 9 8)
        \/ (exists ts, standard_values_location r = Tokens ts
                       /\ length (s_values s) = Nat.min 9 12)).
Proof.
  eexists. eexists. split; [reflexivity|]. split; [reflexivity|].
  eapply (means_count (num := Q) plate [0; 1; 2; 3; 4; 5; 6; 7; 8]%Q ["mg"; "mL"] ["3"]);
    reflexivity.
Defined.

Lemma too_many_concentrations_witness :
  fit (num := Q) plate [0; 1; 2; 3; 4; 5; 6; 7; 8]%Q ["mg"; "mL"] ["3"] = Raises ValueError.
Proof.
  edestruct (too_many_concentrations (num := Q) plate
               [0; 1; 2; 3; 4; 5; 6; 7; 8]%Q ["mg"; "mL"] ["3"]) as [Hv _];
    [reflexivity | reflexivity |].
  eapply Hv; [reflexivity | cbn; lia].
Defined.

Lemma standards_outside_plate_witness :
  StandardCurve (num := Q) plate [0; 1]%Q ["mg"; "mL"] ["3"; "13"] = None
  /\ fit (num := Q) plate [0; 1]%Q ["mg"; "mL"] ["3"; "13"] = Raises AttributeError.
Proof.
  apply (standards_outside_plate (num := Q) plate [0; 1]%Q ["mg"; "mL"] "3" ["13"]).
  - reflexivity.
  - reflexivity.
  - apply Exists_cons_tl. apply Exists_cons_hd.
    exists 13%Z. split; [reflexivity | lia].
Defined.

Lemma data_well_formed_witness :
  exists d, data (num := Q) short_sheet = Returns d
    /\ well_formed d
    /\ length (columns d) = 12
    /\ length (values d) = Nat.min 8 3.
Proof.
  apply (data_well_formed (num := Q) short_sheet).
  - split; [reflexivity|]. repeat constructor.
  - cbn. lia.
Defined.

(** ** Turning a frame *)

Section TransposeFacts.

Context {num : Type} `{Number num}.

Lemma by_positions {A : Type} (d : A) (l : list A) :
  map (fun i => nth i l d) (seq 0 (length l)) = l.
Proof.
  apply (nth_ext _ _ d d).
  - now rewrite length_map, length_seq.
  - intros i Hi. rewrite length_map, length_seq in Hi.
    rewrite (nth_indep _ d (nth 0 l d)) by now rewrite length_map, length_seq.
    rewrite (map_nth (fun i => nth i l d)). now rewrite seq_nth.
Qed.

Lemma flat_map_singletons {A B : Type} (f : A -> B) (l : list A) :
  flat_map (fun a => [f a]) l = map f l.
Proof. induction l as [|a l IH]; cbn; [reflexivity | now rewrite IH]. Qed.

Lemma flat_map_agree {A B : Type} (f g : A -> list B) (l : list A) :
  (forall a, In a l -> f a = g a) -> flat_map f l = flat_map g l.
Proof.
  induction l as [|a l IH]; intros Hfg; [reflexivity|].
  cbn [flat_map]. rewrite (Hfg a (or_introl eq_refl)), IH; [reflexivity|].
  intros b Hb. apply Hfg. now right.
Qed.

Lemma column_as_map (df : DataFrame num) (j : nat) :
  Forall (fun row => j < length row) (values df) ->
  column df j = map (fun row => nth j row (Text "")) (values df).
Proof.
  unfold column. induction 1 as [|row rows Hrow _ IH]; [reflexivity|].
  cbn [flat_map map]. rewrite IH. unfold at_position.
  destruct (nth_error row j) eqn:E.
  - now rewrite (nth_error_nth _ _ (Text "") E).
  - apply nth_error_None in E. lia.
Qed.

(** X14. Turning a well-formed frame twice gives the frame back: labels, rows
    and cells. *)
Theorem transpose_involution (df : DataFrame num) :
  well_formed df -> transpose (transpose df) = df.
Proof.
  intros [Hidx Hrows]. destruct df as [idx cols rows]. cbn [index columns values] in *.
  unfold transpose at 1. cbn [index columns values transpose]. f_equal.
  rewrite Hidx.
  transitivity (map (fun i => nth i rows []) (seq 0 (length rows)));
    [|apply by_positions].
  apply map_ext_in. intros i Hi. apply in_seq in Hi.
  unfold column at 1. unfold transpose. cbn [values columns]. rewrite flat_map_map.
  assert (Hrow : length (nth i rows []) = length cols).
  { rewrite Forall_forall in Hrows. apply Hrows. apply nth_In. lia. }
  rewrite <- (by_positions (Text "") (nth i rows [])), Hrow.
  rewrite <- flat_map_singletons.
  apply flat_map_agree. intros j Hj. apply in_seq in Hj.
  rewrite column_as_map.
  2:{ cbn [values]. eapply Forall_impl; [|exact Hrows]. cbv beta. intros row E. lia. }
  cbn [values]. unfold at_position.
  rewrite nth_error_map, (nth_error_nth' rows [] (n := i)) by lia.
  reflexivity.
Qed.

End TransposeFacts.

Lemma transpose_involution_witness :
  transpose (transpose (sheet (num := Q) 12 letters)) = sheet 12 letters.
Proof.
  apply (transpose_involution (sheet (num := Q) 12 letters)).
  split; [reflexivity|]. repeat constructor.
Defined.

(** ** Splitting what is typed *)

Module SplitFacts.

Import Str Prompt Words.

Lemma split_nonempty (sep : ascii) (s : string) : split sep s <> [].
Proof.
  destruct s as [|c s]; cbn [split]; [discriminate|].
  destruct (Ascii.eqb c sep); [discriminate|].
  destruct (split sep s); discriminate.
Qed.

Lemma split_comma_is_split (s : string) : split "," s = split_comma s.
Proof.
  induction s as [|c s IH]; [reflexivity|].
  cbn [split split_comma]. now rewrite IH.
Qed.

Lemma join_cons (sep : ascii) (t : string) (rest : list string) :
  rest <> [] -> join sep (t :: rest) = (t ++ String sep (join sep rest))%string.
Proof. destruct rest; [intros E; now elim E | reflexivity]. Qed.

(** X15. Splitting loses nothing: the parts hold no separator, there is at
    least one part, and joined with the separator they give back what was
    typed. *)
Theorem split_join (sep : ascii) (s : string) :
  join sep (split sep s) = s
  /\ Forall (fun t => free_of sep t = true) (split sep s)
  /\ split sep s <> [].
Proof.
  split; [|split; [|apply split_nonempty]].
  - induction s as [|c s IH]; [reflexivity|].
    cbn [split]. destruct (Ascii.eqb_spec c sep) as [->|Hne].
    + rewrite join_cons by apply split_nonempty. now rewrite IH.
    + pose proof (split_nonempty sep s) as Hs.
      destruct (split sep s) as [|t ts]; [now elim Hs|].
      destruct ts as [|u ts].
      * cbn [join] in *. now rewrite IH.
      * rewrite join_cons by discriminate. rewrite join_cons in IH by discriminate.
        cbn [String.append]. now rewrite IH.
  - induction s as [|c s IH]; [repeat constructor|].
    cbn [split]. destruct (Ascii.eqb c sep) eqn:Hc.
    + constructor; [reflexivity | exact IH].
    + destruct (split sep s) as [|t ts].
      * repeat constructor. unfold free_of. cbn [all]. now rewrite Hc.
      * inversion IH as [|? ? Ht Hts]; subst. constructor; [|exact Hts].
        unfold free_of in *. cbn [all]. now rewrite Hc, Ht.
Qed.

Lemma split_free (sep : ascii) (s : string) :
  free_of sep s = true -> split sep s = [s].
Proof.
  induction s as [|c s IH]; [reflexivity|].
  unfold free_of. cbn [all split]. intros Hall. apply andb_prop in Hall as [Hc Hs].
  apply negb_true_iff in Hc. rewrite Hc. now rewrite (IH Hs).
Qed.

Lemma split_at_first (sep : ascii) (t rest : string) :
  free_of sep t = true ->
  split sep (t ++ String sep rest) = t :: split sep rest.
Proof.
  induction t as [|c t IH].
  - intros _. cbn [String.append split]. now rewrite Ascii.eqb_refl.
  - unfold free_of. cbn [all String.append split]. intros Hall.
    apply andb_prop in Hall as [Hc Ht]. apply negb_true_iff in Hc.
    rewrite Hc. now rewrite (IH Ht).
Qed.

(** X16. The unit must be typed with a "/": a unit without one passes the
    prompt but makes [standard_units[1]] an [IndexError] where the unit is
    first used. Typed as numerator/denominator it is read as those two
    parts, and whatever follows a second "/" is not used. *)
Theorem unit_needs_slash (numerator denominator more : string) :
  free_of "/" numerator = true ->
  free_of "/" denominator = true ->
  unit_parts (standard_units_of numerator) = Raises IndexError
  /\ unit_parts (standard_units_of (numerator ++ "/" ++ denominator))
     = Returns (numerator, denominator)
  /\ unit_parts (standard_units_of (numerator ++ "/" ++ denominator ++ "/" ++ more))
     = Returns (numerator, denominator).
Proof.
  intros Hn Hd. unfold standard_units_of. split; [|split].
  - now rewrite (split_free _ _ Hn).
  - change ("/" ++ denominator)%string with (String "/" denominator).
    now rewrite (split_at_first _ _ _ Hn), (split_free _ _ Hd).
  - change ("/" ++ denominator ++ "/" ++ more)%string
      with (String "/" (denominator ++ String "/" more)).
    rewrite (split_at_first _ _ _ Hn), (split_at_first _ _ _ Hd).
    pose proof (split_nonempty "/" more) as Hm.
    now destruct (split "/" more).
Qed.

Lemma lower_upper_char (c : ascii) : char_lower (char_upper c) = char_lower c.
Proof. CaseFacts.by_char c; reflexivity. Qed.

Lemma lower_upper (s : string) : lower (upper s) = lower s.
Proof.
  induction s as [|c s IH]; [reflexivity|].
  cbn [upper lower]. now rewrite lower_upper_char, IH.
Qed.

(** X17. An answer of ASCII text to the straight-line question is read
    without regard to case or to white space around it: the answer, the
    answer in upper case and the answer stripped choose the same mode. *)
Theorem straight_line_ignores_case_and_spaces (answer : string) :
  is_ascii answer = true ->
  straight_line (upper answer) = straight_line answer
  /\ straight_line (strip answer) = straight_line answer.
Proof.
  intros _. unfold straight_line. split.
  - now rewrite CaseFacts.strip_upper, lower_upper.
  - now rewrite CaseFacts.strip_twice.
Qed.

End SplitFacts.

Lemma straight_line_ignores_case_and_spaces_witness :
  Prompt.straight_line (Str.upper " Yes ") = Prompt.straight_line " Yes "
  /\ Prompt.straight_line (Str.strip " Yes ") = Prompt.straight_line " Yes ".
Proof.
  apply (SplitFacts.straight_line_ignores_case_and_spaces " Yes "). reflexivity.
Defined.

Lemma unit_needs_slash_witness :
  Prompt.unit_parts (Prompt.standard_units_of "mg") = Raises IndexError
  /\ Prompt.unit_parts (Prompt.standard_units_of ("mg" ++ "/" ++ "mL"))
     = Returns ("mg", "mL")
  /\ Prompt.unit_parts (Prompt.standard_units_of ("mg" ++ "/" ++ "mL" ++ "/" ++ "x"))
     = Returns ("mg", "mL").
Proof.
  apply (SplitFacts.unit_needs_slash "mg" "mL" "x"); reflexivity.
Defined.

(** ** Manual mode *)

Section ManualFacts.

Context {num : Type} `{Number num}.

Lemma absorbance_loop_answers (curve : Curve num) (answers : nat -> option num)
    (entered : list num) (done : nat) :
  (forall i, i < length entered -> answers (done + i) = Some (nth i entered nzero)) ->
  snd (absorbance_loop curve answers done (length entered)) = None
  /\ concentrations_printed (fst (absorbance_loop curve answers done (length entered)))
     = manual curve entered
  /\ length (fst (absorbance_loop curve answers done (length entered))) = length entered.
Proof.
  revert done. induction entered as [|a entered IH]; intros done Hans.
  - repeat split.
  - cbn [length absorbance_loop].
    pose proof (Hans 0 (Nat.lt_0_succ _)) as H0. rewrite Nat.add_0_r in H0.
    cbn [nth] in H0. rewrite H0.
    destruct (IH (S done)) as (Hend & Hconc & Hlen).
    { intros i Hi. replace (S done + i) with (done + S i) by lia.
      apply (Hans (S i)). cbn [length]. lia. }
    destruct (absorbance_loop curve answers (S done) (length entered)) as [more e].
    cbn [fst snd] in *. split; [exact Hend|]. split.
    + unfold concentrations_printed in *. cbn [flat_map app].
      unfold manual in *. cbn [map]. now rewrite Hconc.
    + cbn [length]. now rewrite Hlen.
Qed.

(** X18. Manual mode with a count that reads as a positive integer, answered
    with that many absorbances: it ends without an exception, announces the
    count, and prints one concentration per absorbance, in order, each the
    estimate of its absorbance. Answers beyond the count are not asked
    for. *)
Theorem manual_mode_estimates (curve : Curve num) (count_typed : string)
    (answers : nat -> option num) (entered : list num) :
  entered <> [] ->
  Str.int count_typed = Some (Z.of_nat (length entered)) ->
  (forall i, i < length entered -> answers i = Some (nth i entered nzero)) ->
  snd (manual_mode curve count_typed answers) = None
  /\ hd_error (fst (manual_mode curve count_typed answers))
     = Some (Calculating (Z.of_nat (length entered)))
  /\ concentrations_printed (fst (manual_mode curve count_typed answers))
     = manual curve entered
  /\ length (fst (manual_mode curve count_typed answers)) = S (length entered).
Proof.
  intros Hne Hcount Hans. unfold manual_mode. rewrite Hcount.
  destruct (Z.ltb_spec 0 (Z.of_nat (length entered))) as [_|Hle].
  2:{ destruct entered; [now elim Hne | cbn [length] in Hle; lia]. }
  rewrite Nat2Z.id.
  destruct (absorbance_loop_answers curve answers entered 0 Hans) as (Hend & Hconc & Hlen).
  destruct (absorbance_loop curve answers 0 (length entered)) as [more e].
  cbn [fst snd] in *. split; [exact Hend|]. split; [reflexivity|]. split.
  - exact Hconc.
  - cbn [length]. now rewrite Hlen.
Qed.

Lemma absorbance_loop_no_warning (curve : Curve num) (answers : nat -> option num)
    (done todo : nat) :
  ~ In WrongFormat (fst (absorbance_loop curve answers done todo)).
Proof.
  revert done. induction todo as [|todo IH]; intros done; [intros []|].
  cbn [absorbance_loop]. destruct (answers done) as [a|]; [|intros []].
  specialize (IH (S done)).
  destruct (absorbance_loop curve answers (S done) todo) as [more e].
  cbn [fst] in *. intros [E|Hin]; [discriminate E | now apply IH].
Qed.

(** X19. For a count of ASCII text: the message about the wrong format is
    printed exactly when the count typed reads as an integer that is zero
    or negative. A count that does not read as an integer ("two", "2.5",
    nothing at all) is not answered with that message but with a
    [ValueError], before anything is printed. *)
Theorem manual_mode_wrong_format (curve : Curve num) (count_typed : string)
    (answers : nat -> option num) :
  Str.is_ascii count_typed = true ->
  (In WrongFormat (fst (manual_mode curve count_typed answers))
   <-> exists k, Str.int count_typed = Some k /\ (k <= 0)%Z)
  /\ (Str.int count_typed = None ->
      manual_mode curve count_typed answers = ([], Some ValueError)).
Proof.
  intros _. unfold manual_mode. split.
  - destruct (Str.int count_typed) as [k|].
    + destruct (Z.ltb_spec 0 k) as [Hpos|Hle].
      * pose proof (absorbance_loop_no_warning curve answers 0 (Z.to_nat k)) as Hno.
        destruct (absorbance_loop curve answers 0 (Z.to_nat k)) as [more e].
        cbn [fst] in *. split.
        -- intros [E|Hin]; [discriminate E | now elim Hno].
        -- intros [k' [E Hk']]. injection E as <-. lia.
      * split; [intros _; now exists k | intros _; now left].
    + split; [intros [] | intros [k [E _]]; discriminate E].
  - intros Hnone. now rewrite Hnone.
Qed.

Lemma absorbance_loop_rejected (curve : Curve num) (answers : nat -> option num)
    (entered : list num) (done more : nat) :
  (forall i, i < length entered -> answers (done + i) = Some (nth i entered nzero)) ->
  answers (done + length entered) = None ->
  snd (absorbance_loop curve answers done (length entered + S more)) = Some ValueError
  /\ concentrations_printed
       (fst (absorbance_loop curve answers done (length entered + S more)))
     = manual curve entered.
Proof.
  revert done. induction entered as [|a entered IH]; intros done Hans Hbad.
  - cbn [length Nat.add absorbance_loop]. cbn [length] in Hbad.
    rewrite Nat.add_0_r in Hbad. now rewrite Hbad.
  - cbn [length Nat.add absorbance_loop].
    pose proof (Hans 0 (Nat.lt_0_succ _)) as H0. rewrite Nat.add_0_r in H0.
    cbn [nth] in H0. rewrite H0.
    destruct (IH (S done)) as (Hend & Hconc).
    { intros i Hi. replace (S done + i) with (done + S i) by lia.
      apply (Hans (S i)). cbn [length]. lia. }
    { rewrite <- Hbad. f_equal. cbn [length]. lia. }
    destruct (absorbance_loop curve answers (S done) (length entered + S more))
      as [printed e].
    cbn [fst snd] in *. split; [exact Hend|].
    unfold concentrations_printed in *. cbn [flat_map app].
    unfold manual in *. cbn [map]. now rewrite Hconc.
Qed.

(** X20. An absorbance that [float] rejects ends manual mode with a
    [ValueError]: the concentrations of the absorbances entered before it
    stay printed, and no later absorbance is asked for. *)
Theorem manual_mode_rejected_absorbance (curve : Curve num) (count_typed : string)
    (answers : nat -> option num) (entered : list num) (k : Z) :
  Str.int count_typed = Some k ->
  (Z.of_nat (length entered) < k)%Z ->
  (forall i, i < length entered -> answers i = Some (nth i entered nzero)) ->
  answers (length entered) = None ->
  snd (manual_mode curve count_typed answers) = Some ValueError
  /\ concentrations_printed (fst (manual_mode curve count_typed answers))
     = manual curve entered.
Proof.
  intros Hcount Hk Hans Hbad. unfold manual_mode. rewrite Hcount.
  destruct (Z.ltb_spec 0 k) as [_|Hle]; [|lia].
  assert (Hsplit : Z.to_nat k = length entered + S (Z.to_nat k - length entered - 1))
    by lia.
  rewrite Hsplit.
  destruct (absorbance_loop_rejected curve answers entered 0
              (Z.to_nat k - length entered - 1) Hans Hbad) as (Hend & Hconc).
  destruct (absorbance_loop curve answers 0
              (length entered + S (Z.to_nat k - length entered - 1))) as [printed e].
  cbn [fst snd] in *. split; [exact Hend | exact Hconc].
Qed.

End ManualFacts.

Lemma manual_mode_wrong_format_witness :
  (In WrongFormat (fst (manual_mode (num := Q) line "-1" (fun _ => None)))
   <-> exists k, Str.int "-1" = Some k /\ (k <= 0)%Z)
  /\ (Str.int "-1" = None ->
      manual_mode (num := Q) line "-1" (fun _ => None) = ([], Some ValueError)).
Proof.
  apply (manual_mode_wrong_format (num := Q) line "-1" (fun _ => None)). reflexivity.
Defined.

Lemma manual_mode_estimates_witness :
  snd (manual_mode (num := Q) line " 2" (fun i => Some (inject_Z (Z.of_nat i)))) = None
  /\ hd_error (fst (manual_mode (num := Q) line " 2"
                      (fun i => Some (inject_Z (Z.of_nat i)))))
     = Some (Calculating 2)
  /\ concentrations_printed
       (fst (manual_mode (num := Q) line " 2" (fun i => Some (inject_Z (Z.of_nat i)))))
     = manual line [0; 1]%Q
  /\ length (fst (manual_mode (num := Q) line " 2"
                    (fun i => Some (inject_Z (Z.of_nat i))))) = 3.
Proof.
  apply (manual_mode_estimates (num := Q) line " 2"
           (fun i => Some (inject_Z (Z.of_nat i))) [0; 1]%Q).
  - discriminate.
  - reflexivity.
  - intros i Hi. destruct i as [|[|i]]; [reflexivity | reflexivity | cbn in Hi; lia].
Defined.

Lemma manual_mode_rejected_absorbance_witness :
  snd (manual_mode (num := Q) line "3"
         (fun i => if (i =? 1)%nat then None else Some 1%Q)) = Some ValueError
  /\ concentrations_printed
       (fst (manual_mode (num := Q) line "3"
               (fun i => if (i =? 1)%nat then None else Some 1%Q)))
     = manual line [1%Q].
Proof.
  apply (manual_mode_rejected_absorbance (num := Q) line "3"
           (fun i => if (i =? 1)%nat then None else Some 1%Q) [1%Q] 3%Z).
  - reflexivity.
  - cbn. lia.
  - intros i Hi. destruct i as [|i]; [reflexivity | cbn in Hi; lia].
  - reflexivity.
Defined.

(** ** The regression on exact data *)

Module ExactFit.

Local Open Scope Q_scope.

Lemma total_shift (l : list Q) (acc : Q) :
  fold_left Qplus l acc == acc + fold_left Qplus l 0.
Proof.
  revert acc. induction l as [|x l IH]; intros acc.
  - cbn. ring.
  - cbn [fold_left]. rewrite (IH (acc + x)), (IH (0 + x)). ring.
Qed.

Lemma total_cons (x : Q) (l : list Q) : total (x :: l) == x + total l.
Proof.
  unfold total. cbn [fold_left nadd nzero exact_number].
  rewrite total_shift. ring.
Qed.

Lemma total_nil : total (num := Q) [] == 0.
Proof. reflexivity. Qed.

Lemma total_line (X y : list Q) (a b : Q) :
  Forall2 (fun x v => v == a * x + b) X y ->
  total y == a * total X + b * Exact.count (length X).
Proof.
  induction 1 as [|x v X y Hv _ IH].
  - rewrite total_nil. unfold Exact.count. cbn. ring.
  - cbn [length]. rewrite !total_cons, IH, Hv, Regression.count_succ. ring.
Qed.

Lemma products_line (X y : list Q) (a xm ym : Q) :
  Forall2 (fun x v => v - ym == a * (x - xm)) X y ->
  total (zip_with Qmult (map (fun x => x - xm) X) (map (fun v => v - ym) y))
  == a * total (zip_with Qmult (map (fun x => x - xm) X) (map (fun x => x - xm) X)).
Proof.
  induction 1 as [|x v X y Hv _ IH].
  - cbn [map zip_with]. rewrite total_nil. ring.
  - cbn [map zip_with]. rewrite !total_cons, IH, Hv. ring.
Qed.

Lemma square_nonneg (q : Q) : 0 <= q * q.
Proof. destruct q as [n d]. unfold Qle. cbn. nia. Qed.

Lemma square_pos (q : Q) : ~ q == 0 -> 0 < q * q.
Proof.
  destruct q as [n d]. unfold Qlt, Qeq. cbn. intros Hq.
  assert (n <> 0)%Z by lia. nia.
Qed.

Lemma squares_nonneg (xm : Q) (X : list Q) :
  0 <= total (zip_with Qmult (map (fun x => x - xm) X) (map (fun x => x - xm) X)).
Proof.
  induction X as [|x X IH].
  - cbn [map zip_with]. rewrite total_nil. apply Qle_refl.
  - cbn [map zip_with]. rewrite total_cons.
    rewrite <- (Qplus_0_l 0). apply Qplus_le_compat; [|exact IH].
    apply square_nonneg.
Qed.

Lemma squares_pos (xm x0 : Q) (X : list Q) :
  In x0 X -> ~ x0 == xm ->
  0 < total (zip_with Qmult (map (fun x => x - xm) X) (map (fun x => x - xm) X)).
Proof.
  intros Hin Hne. induction X as [|x X IH]; [elim Hin|].
  cbn [map zip_with]. rewrite total_cons. destruct Hin as [->|Hin].
  - rewrite <- (Qplus_0_r 0). apply Qplus_lt_le_compat; [|apply squares_nonneg].
    apply square_pos. intros E. apply Hne.
    rewrite <- (Qplus_0_l xm), <- E. ring.
  - rewrite Qplus_comm, <- (Qplus_0_r 0).
    apply Qplus_lt_le_compat; [now apply IH | apply square_nonneg].
Qed.

Lemma positive_not_zero (q : Q) : 0 < q -> Exact.is_zero q = false.
Proof.
  unfold Qlt, Exact.is_zero. cbn [Qnum Qden]. intros Hq. apply Z.eqb_neq. lia.
Qed.

(** X21. Standards that lie exactly on a line, with at least two different
    concentrations among them, are fitted by that line; and when the line
    is not flat, the estimate of an absorbance on it is the concentration
    it came from. *)
Theorem exact_line_recovered (X y : list Q) (a b x1 x2 : Q) :
  Forall2 (fun x v => v == a * x + b) X y ->
  In x1 X -> In x2 X -> ~ x1 == x2 ->
  exists curve, LinearRegression_fit X y = Returns curve
    /\ slope curve == a
    /\ intercept curve == b
    /\ (~ a == 0 -> forall c, CalcConc curve (a * c + b) == c).
Proof.
  intros Hline H1 H2 Hdiff.
  assert (Hlen : length X = length y) by (eapply Forall2_length; exact Hline).
  unfold LinearRegression_fit. rewrite <- Hlen, Nat.eqb_refl. cbn [negb].
  destruct X as [|x X]; [elim H1|].
  cbn [length Nat.eqb]. rewrite !Regression.all_finite. cbn [andb negb].
  set (n := ncount (S (length X))).
  set (xm := ndiv (total (x :: X)) n).
  set (ym := ndiv (total y) n).
  assert (Hn : ~ n == 0) by apply Regression.count_nonzero.
  assert (Hym : ym == a * xm + b).
  { unfold ym, xm. cbn [ndiv exact_number].
    rewrite (total_line _ _ _ _ Hline). cbn [length]. fold n.
    change (Exact.count (S (length X))) with n. field. exact Hn. }
  assert (Hcentred : Forall2 (fun x v => v - ym == a * (x - xm)) (x :: X) y).
  { eapply Forall2_impl; [|exact Hline]. cbv beta. intros u v Hv.
    rewrite Hv, Hym. ring. }
  assert (Hpos : 0 < total (zip_with Qmult (map (fun u => u - xm) (x :: X))
                                            (map (fun u => u - xm) (x :: X)))).
  { destruct (Qeq_dec x1 xm) as [E1|N1].
    - apply (squares_pos xm x2); [exact H2|]. intros E2. apply Hdiff.
      now rewrite E1, E2.
    - now apply (squares_pos xm x1). }
  change (map (fun x0 : Q => nsub x0 xm) (x :: X))
    with (map (fun u => u - xm) (x :: X)).
  change (map (fun v : Q => nsub v ym) y) with (map (fun v => v - ym) y).
  change (@nmul Q exact_number) with Qmult.
  change (@niszero Q exact_number) with Exact.is_zero.
  rewrite (positive_not_zero _ Hpos).
  eexists. split; [reflexivity|]. cbn [slope intercept].
  cbn [ndiv nsub nmul exact_number].
  assert (Hslope : total (zip_with Qmult (map (fun u => u - xm) (x :: X))
                                          (map (fun v => v - ym) y))
                   / total (zip_with Qmult (map (fun u => u - xm) (x :: X))
                                            (map (fun u => u - xm) (x :: X)))
                   == a).
  { rewrite (products_line _ _ _ _ _ Hcentred). field.
    intros E. rewrite E in Hpos. now apply Qlt_irrefl in Hpos. }
  split; [exact Hslope|]. split.
  - rewrite Hslope, Hym. ring.
  - intros Ha c. unfold CalcConc. cbn [slope intercept ndiv nsub exact_number].
    rewrite Hslope, Hym. field. exact Ha.
Qed.

End ExactFit.

Lemma exact_line_recovered_witness :
  exists curve, LinearRegression_fit (num := Q) [0; 1; 2]%Q [1 # 2; 5 # 2; 9 # 2]%Q
                = Returns curve
    /\ (slope curve == 2)%Q
    /\ (intercept curve == 1 # 2)%Q
    /\ (~ (2 == 0)%Q -> forall c, (CalcConc curve (2 * c + (1 # 2)) == c)%Q).
Proof.
  apply (ExactFit.exact_line_recovered [0; 1; 2]%Q [1 # 2; 5 # 2; 9 # 2]%Q
           2%Q (1 # 2)%Q 0%Q 1%Q).
  - repeat constructor.
  - left. reflexivity.
  - right. left. reflexivity.
  - intros E. discriminate E.
Defined.

(** ** Rounding the means *)

Module RoundFacts.

Lemma rint_ratio_close (n : Z) (d : positive) :
  (2 * (Exact.rint_ratio n d * Zpos d - n) <= Zpos d
   /\ 2 * (n - Exact.rint_ratio n d * Zpos d) <= Zpos d)%Z.
Proof.
  unfold Exact.rint_ratio.
  pose proof (Z.div_mod n (Zpos d) ltac:(lia)) as Hdiv.
  pose proof (Z.mod_pos_bound n (Zpos d) ltac:(lia)) as Hmod.
  destruct (Z.compare_spec (2 * (n mod Zpos d)) (Zpos d)) as [E|L|G].
  - destruct (Z.even (n / Zpos d)); nia.
  - nia.
  - nia.
Qed.

(** X22. Over exact arithmetic, rounding to 4 decimals gives a multiple of
    0.0001 that is within 0.00005 of the number rounded. *)
Theorem round4_close (x : Q) :
  (x - (1 # 20000) <= Exact.round4 x)%Q
  /\ (Exact.round4 x <= x + (1 # 20000))%Q
  /\ Qden (Exact.round4 x) = 10000%positive.
Proof.
  destruct x as [n d]. unfold Exact.round4. cbn [Qnum Qden].
  destruct (rint_ratio_close (n * 10000) d) as [Hup Hdown].
  set (r := Exact.rint_ratio (n * 10000) d) in *.
  split; [|split; [|reflexivity]].
  - unfold Qle, Qminus, Qplus, Qopp. cbn [Qnum Qden].
    rewrite !Pos2Z.inj_mul. nia.
  - unfold Qle, Qplus. cbn [Qnum Qden].
    rewrite !Pos2Z.inj_mul. nia.
Qed.

End RoundFacts.

(** ** A batch of tokens that can all be answered *)

Section ValidBatch.

Context {num : Type} `{Number num}.

Lemma turn_of_resolvable (names : list string) (m : list (list num))
    (curve : Curve num) (t : string) :
  Forall (fun row => length row = 12) m ->
  NoDup names ->
  length names = length m ->
  resolvable names t ->
  exists printed,
    sample_turn (numeric_plate (row_labels names) m) curve t = Returns printed
    /\ length printed = length (filter Str.nonempty [t]).
Proof.
  intros Hm Hnd Hlen Hres. destruct t as [|c s].
  - exists []. split; reflexivity.
  - cbn [filter Str.nonempty length]. unfold sample_turn.
    destruct Hres as [[Hd [k [Hint Hk]]] | [[Ha Hin] | [Hd Ha]]].
    + rewrite Hd. unfold to_int. rewrite Hint. cbn [bind].
      rewrite (sample_abs_column _ m k Hm Hk). cbn [bind]. now eexists.
    + rewrite (CharFacts.alpha_not_digit c Ha), Ha.
      rewrite (sample_abs_row names m _ Hm Hnd Hlen Hin). cbn [bind]. now eexists.
    + rewrite Hd, Ha. now eexists.
Qed.

(** X23. On a plate of numbers with the columns 1 to 12 and distinct row
    names, a batch whose tokens are ASCII text and can all be answered runs
    to its end without an exception and prints exactly one report for
    every token that is not empty. *)
Theorem valid_batch_completes (names : list string) (m : list (list num))
    (curve : Curve num) (samples : list string) :
  Forall (fun row => length row = 12) m ->
  NoDup names ->
  length names = length m ->
  Forall (fun t => Str.is_ascii t = true) samples ->
  Forall (resolvable names) samples ->
  snd (sample_loop (numeric_plate (row_labels names) m) curve samples) = None
  /\ length (fst (sample_loop (numeric_plate (row_labels names) m) curve samples))
     = length (filter Str.nonempty samples).
Proof.
  intros Hm Hnd Hlen _ Hall.
  induction Hall as [|t samples Ht _ IH]; [split; reflexivity|].
  destruct (turn_of_resolvable names m curve t Hm Hnd Hlen Ht) as (printed & Hturn & Hone).
  cbn [sample_loop]. rewrite Hturn.
  destruct (sample_loop (numeric_plate (row_labels names) m) curve samples) as [more e].
  cbn [fst snd] in *. destruct IH as [Hend Hcount]. split; [exact Hend|].
  rewrite length_app, Hone, Hcount. cbn [filter].
  destruct (Str.nonempty t); reflexivity.
Qed.

(** X24. [data] reads nothing but the block of columns 2 to 14 in the last 8
    rows: two sheets of at least 14 columns that agree on that block give
    the same plate, whatever their headers, their first column, their
    further columns and their rows above. *)
Theorem data_reads_only_the_block (df df' : DataFrame num) :
  14 <= length (columns df) ->
  14 <= length (columns df') ->
  map (slice 1 14) (tail 8 (values df)) = map (slice 1 14) (tail 8 (values df')) ->
  data df = data df'.
Proof.
  intros Hw Hw' Hblock. rewrite !data_by_width.
  destruct (Nat.leb_spec (length (columns df)) 1) as [L|_]; [lia|].
  destruct (Nat.ltb_spec (length (columns df)) 14) as [L|_]; [lia|].
  destruct (Nat.leb_spec (length (columns df')) 1) as [L|_]; [lia|].
  destruct (Nat.ltb_spec (length (columns df')) 14) as [L|_]; [lia|].
  f_equal. f_equal.
  - f_equal. unfold column. cbn [values table].
    rewrite (flat_map_ext _ _ (fun row => eq_sym (first_of_selection row))).
    rewrite (flat_map_ext (fun row => at_position row 1) _
               (fun row => eq_sym (first_of_selection row)) (tail 8 (values df'))).
    rewrite <- !(flat_map_map (firstn 1) (slice 1 14)). now rewrite Hblock.
  - cbn [values table].
    rewrite (map_ext _ _ (fun row => eq_sym (rest_of_selection row))).
    rewrite (map_ext (slice 2 14) _ (fun row => eq_sym (rest_of_selection row))
               (tail 8 (values df'))).
    rewrite <- !(map_map (slice 1 14) (skipn 1)). now rewrite Hblock.
Qed.

End ValidBatch.

Lemma valid_batch_completes_witness :
  snd (sample_loop (num := Q) plate line ["3"; ""; "b"; " 4"; "12"]) = None
  /\ length (fst (sample_loop (num := Q) plate line ["3"; ""; "b"; " 4"; "12"])) = 4.
Proof.
  apply (valid_batch_completes (num := Q) letters readings line
           ["3"; ""; "b"; " 4"; "12"] readings_rows letters_distinct eq_refl).
  { repeat constructor. }
  apply Forall_cons.
  { left. split; [reflexivity|]. exists 3%Z. split; [reflexivity | lia]. }
  apply Forall_cons; [exact I|].
  apply Forall_cons.
  { right. left. split; [reflexivity|]. cbn. tauto. }
  apply Forall_cons.
  { right. right. split; reflexivity. }
  apply Forall_cons; [|apply Forall_nil].
  left. split; [reflexivity|]. exists 12%Z. split; [reflexivity | lia].
Defined.

Lemma data_reads_only_the_block_witness :
  data (num := Q) noisy_sheet = data (sheet 12 letters).
Proof.
  apply (data_reads_only_the_block (num := Q) noisy_sheet (sheet 12 letters)).
  - cbn. lia.
  - cbn. lia.
  - reflexivity.
Defined.
